(** * Fundsly bonding-curve scripts: a shallow embedding and its properties

    The two analysis scripts [scripts/bonding_curve_simulator.py] and
    [scripts/market_cap_analyzer.py] compute with Python numbers and the
    true division [/].  They are embedded twice.

    The modules [Simulator] and [Analyzer] evaluate the source
    expressions in exact rational arithmetic ([Q], compared with [==];
    decimal literals such as [0.95] are read as exact decimals), and keep
    the one way these expressions can fail: Python's [/] raises
    [ZeroDivisionError] when the divisor is equal to zero.  This is the
    reading "over the rationals": it has no rounding, no underflow and no
    absorption, so a quotient of non-zero numbers is never zero and a
    sum is zero only when it is exactly zero.

    The module [Binary64] repeats the same expressions with IEEE 754
    binary64 operations, which is what the scripts run on.  Statements
    that depend on exact arithmetic are marked "over the rationals" and
    come with the binary64 inputs at which the code differs; the other
    statements are written on the expressions and divisors as the code
    computes them, in the source's order of operations. *)

From Stdlib Require Import QArith Qminmax Qabs Lqa Lia List ZArith String.
From Stdlib Require Import Sorted.
From Stdlib Require Import Floats.
Import ListNotations.
Local Open Scope Q_scope.

(** ** Python results: a value or a raised exception *)

Inductive PyExc : Type :=
| ZeroDivisionError.

Inductive result (A : Type) : Type :=
| Ok (a : A)
| Raise (e : PyExc).

Arguments Ok {A} a.
Arguments Raise {A} e.

Definition bind {A B : Type} (r : result A) (f : A -> result B) : result B :=
  match r with
  | Ok a => f a
  | Raise e => Raise e
  end.

Notation "x <- r ;; k" := (bind r (fun x => k))
  (at level 61, r at next level, right associativity).

(** [x / y] of Python on numbers, over the rationals: it raises when the
    divisor is zero, and a quotient is zero only when the dividend is.
    ([Binary64.py_div] is the same on floats, where quotients round and
    can underflow to zero.) *)
Definition py_div (x y : Q) : result Q :=
  if Qeq_bool y 0 then Raise ZeroDivisionError else Ok (x / y).

(** [max(a, b)] of Python: the first argument unless the second is
    strictly greater. *)
Definition py_max (a b : Q) : Q :=
  if Qle_bool b a then a else b.

(** [r] returns a number equal to [v]. *)
Definition returns (r : result Q) (v : Q) : Prop :=
  exists q, r = Ok q /\ q == v.

(** Running a fallible function over a list, in order, stopping at the
    first exception: a [for] loop or comprehension that collects results. *)
Fixpoint mapM {A B : Type} (f : A -> result B) (l : list A) : result (list B) :=
  match l with
  | [] => Ok []
  | a :: rest =>
      b <- f a ;;
      bs <- mapM f rest ;;
      Ok (b :: bs)
  end.

(** The sum of a list of numbers, for totals accumulated by [+=]. *)
Definition Qsum (l : list Q) : Q := fold_right Qplus 0 l.

(** ** scripts/bonding_curve_simulator.py *)

Module Simulator.

(** [calculate_buy_cost(virtual_sol, virtual_tokens, real_tokens, buy_amount)] *)
Definition calculate_buy_cost
    (virtual_sol virtual_tokens real_tokens buy_amount : Q) : result Q :=
  let k := virtual_sol * (virtual_tokens + real_tokens) in
  let remaining := real_tokens - buy_amount in
  new_sol <- py_div k (virtual_tokens + remaining) ;;
  Ok (new_sol - virtual_sol).

(** One row of the three lists that [calculate_price_curve] fills. *)
Record CurvePoint : Type := mkCurvePoint {
  cp_tokens_bought : Q;   (* tokens_to_buy / 1_000_000 *)
  cp_price : Q;           (* current_price *)
  cp_sol_spent : Q        (* sol_needed *)
}.

(** The body of the [for] loop of [calculate_price_curve], from the
    comment "Calculate SOL needed" on, at a given [tokens_to_buy]. *)
Definition price_curve_point
    (virtual_sol virtual_tokens real_tokens tokens_to_buy : Q)
    : result CurvePoint :=
  let k := virtual_sol * (virtual_tokens + real_tokens) in
  let remaining_tokens := real_tokens - tokens_to_buy in
  new_total_sol <- py_div k (virtual_tokens + remaining_tokens) ;;
  let sol_needed := new_total_sol - virtual_sol in
  current_price <-
    py_div (virtual_sol + sol_needed) (virtual_tokens + remaining_tokens) ;;
  Ok (mkCurvePoint (tokens_to_buy / 1000000) current_price sol_needed).

(** [range(n)] of Python. *)
Definition py_range (n : Z) : list Z :=
  map Z.of_nat (seq 0 (Z.to_nat n)).

(** The [for i in range(num_points)] loop, appending to the three lists. *)
Fixpoint price_curve_loop
    (virtual_sol virtual_tokens real_tokens increment : Q)
    (indices : list Z) (tokens_bought prices sol_spent : list Q)
    : result (list Q * list Q * list Q) :=
  match indices with
  | [] => Ok (tokens_bought, prices, sol_spent)
  | i :: rest =>
      let tokens_to_buy := increment * inject_Z (i + 1) in
      pt <- price_curve_point virtual_sol virtual_tokens real_tokens
              tokens_to_buy ;;
      price_curve_loop virtual_sol virtual_tokens real_tokens increment rest
        (tokens_bought ++ [cp_tokens_bought pt])
        (prices ++ [cp_price pt])
        (sol_spent ++ [cp_sol_spent pt])
  end.

(** [calculate_price_curve(virtual_sol, virtual_tokens, real_tokens,
    num_points=100)] *)
Definition calculate_price_curve
    (virtual_sol virtual_tokens real_tokens : Q) (num_points : Z)
    : result (list Q * list Q * list Q) :=
  let total_supply := real_tokens in
  increment <- py_div total_supply (inject_Z num_points) ;;
  price_curve_loop virtual_sol virtual_tokens real_tokens increment
    (py_range num_points) [] [] [].

(** The rows the loop appends, one per index, in order. *)
Definition rows_of (virtual_sol virtual_tokens real_tokens increment : Q)
    (indices : list Z) (pts : list CurvePoint) : Prop :=
  Forall2
    (fun i pt =>
       price_curve_point virtual_sol virtual_tokens real_tokens
         (increment * inject_Z (i + 1)) = Ok pt)
    indices pts.

(** *** [simulate_trading_scenario] *)

(** The two variables the buyer loop updates. *)
Record SimState : Type := mkSimState {
  remaining : Q;
  total_sol : Q
}.

(** What one pass of the buyer loop computes for its printed line. *)
Record BuyerLine : Type := mkBuyerLine {
  bl_name : string;
  bl_tokens_bought : Q;
  bl_pct_of_supply : Q;
  bl_avg_price : Q
}.

(** The body of [for buyer_name, sol_amount in buyers]. *)
Definition buyer_step (vsol vtok supply : Q) (st : SimState)
    (buyer : string * Q) : result (BuyerLine * SimState) :=
  let '(buyer_name, sol_amount) := buyer in
  let k := (vsol + total_sol st) * (vtok + remaining st) in
  let new_sol := vsol + total_sol st + sol_amount in
  new_tokens <- py_div k new_sol ;;
  let tokens_bought := (vtok + remaining st) - new_tokens in
  frac <- py_div tokens_bought supply ;;
  let pct_of_supply := frac * 100 in
  avg_price <-
    (if negb (Qle_bool tokens_bought 0)
     then py_div sol_amount tokens_bought
     else Ok 0) ;;
  Ok (mkBuyerLine buyer_name tokens_bought pct_of_supply avg_price,
      mkSimState (remaining st - tokens_bought) (total_sol st + sol_amount)).

(** The buyer loop from a given state: the printed lines and the final
    state. *)
Fixpoint buyer_loop (vsol vtok supply : Q) (st : SimState)
    (buyers : list (string * Q)) : result (list BuyerLine * SimState) :=
  match buyers with
  | [] => Ok ([], st)
  | b :: rest =>
      r <- buyer_step vsol vtok supply st b ;;
      rs <- buyer_loop vsol vtok supply (snd r) rest ;;
      Ok (fst r :: fst rs, snd rs)
  end.

(** [remaining = supply; total_sol = 0] *)
Definition initial_state (supply : Q) : SimState := mkSimState supply 0.

Definition scenarios : list (string * Q * Q) :=
  [ ("Current (30/1B)"%string, 30, 1000000000);
    ("Optimized (200/600M)"%string, 200, 600000000) ].

Definition buyers : list (string * Q) :=
  [ ("Small retail (0.5 SOL)"%string, 5 # 10);
    ("Medium retail (2 SOL)"%string, 2);
    ("Large retail (5 SOL)"%string, 5);
    ("Small whale (20 SOL)"%string, 20);
    ("Large whale (100 SOL)"%string, 100) ].

Definition supply : Q := 1000000000.

(** One scenario of [simulate_trading_scenario]: the buyer loop, then the
    two summary numbers (total SOL, percentage of tokens remaining). *)
Definition run_scenario (vsol vtok : Q)
    : result (list BuyerLine * SimState * Q) :=
  r <- buyer_loop vsol vtok supply (initial_state supply) buyers ;;
  frac <- py_div (remaining (snd r)) supply ;;
  Ok (fst r, snd r, frac * 100).

(** The quantity the buyer loop recomputes as [k] at each pass. *)
Definition pool_product (vsol vtok : Q) (st : SimState) : Q :=
  (vsol + total_sol st) * (vtok + remaining st).

(** States the buyer loop can be in: the initial one, and those reached by
    a pass with a positive [sol_amount]. *)
Inductive reachable (vsol vtok supply : Q) : SimState -> Prop :=
| reach_init : reachable vsol vtok supply (initial_state supply)
| reach_step st name sol_amount line st' :
    reachable vsol vtok supply st ->
    0 < sol_amount ->
    buyer_step vsol vtok supply st (name, sol_amount) = Ok (line, st') ->
    reachable vsol vtok supply st'.

(** *** [whale_attack_analysis] *)

(** The body of the inner loop: tokens a budget buys, and the percentage
    of the supply. *)
Definition whale_purchase (vsol vtok supply budget : Q) : result (Q * Q) :=
  let k := vsol * (vtok + supply) in
  let new_sol := vsol + budget in
  new_tokens <- py_div k new_sol ;;
  let tokens_bought := (vtok + supply) - new_tokens in
  frac <- py_div tokens_bought supply ;;
  Ok (tokens_bought, frac * 100).

Definition whale_budgets : list Q := [10; 20; 50; 100; 200; 500].

(** *** [print_comparison_table] *)

Definition comparison_scenarios : list (string * Q * Q) :=
  [ ("Current (30/1B)"%string, 30, 1000000000);
    ("Option 1 (85/800M)"%string, 85, 800000000);
    ("Option 2 (200/600M) ⭐"%string, 200, 600000000);
    ("Option 3 (500/500M)"%string, 500, 500000000) ].

(** The numbers one scenario of the table prints. *)
Record ComparisonRow : Type := mkComparisonRow {
  cr_name : string;
  cr_initial_price : Q;
  cr_sol_10 : Q;
  cr_sol_25 : Q;
  cr_sol_50 : Q;
  cr_sol_75 : Q;
  cr_sol_90 : Q
}.

(** The body of [for name, vsol, vtok in scenarios], reading [supply]. *)
Definition comparison_row (supply : Q) (scenario : string * Q * Q)
    : result ComparisonRow :=
  let '(name, vsol, vtok) := scenario in
  initial_price <- py_div vsol vtok ;;
  sol_10 <- calculate_buy_cost vsol vtok supply (supply * (10 # 100)) ;;
  sol_25 <- calculate_buy_cost vsol vtok supply (supply * (25 # 100)) ;;
  sol_50 <- calculate_buy_cost vsol vtok supply (supply * (50 # 100)) ;;
  sol_75 <- calculate_buy_cost vsol vtok supply (supply * (75 # 100)) ;;
  sol_90 <- calculate_buy_cost vsol vtok supply (supply * (90 # 100)) ;;
  Ok (mkComparisonRow name initial_price sol_10 sol_25 sol_50 sol_75 sol_90).

(** [print_comparison_table()]: the rows it prints. *)
Definition print_comparison_table : result (list ComparisonRow) :=
  mapM (comparison_row 1000000000) comparison_scenarios.

(** *** [plot_comparison]: the second chart's data *)

(** [percentages = [i * 0.95 for i in range(101)]], with [0.95] read as
    the exact decimal 95/100 ([Binary64.plot_percentages] has the float). *)
Definition plot_percentages : list Q :=
  map (fun i => inject_Z i * (95 # 100)) (py_range 101).

(** [costs = [calculate_buy_cost(vsol, vtok, supply, supply * p / 100)
              for p in percentages]] *)
Definition plot_costs (vsol vtok supply : Q) : result (list Q) :=
  mapM (fun p => calculate_buy_cost vsol vtok supply (supply * p / 100))
       plot_percentages.

End Simulator.

(** ** scripts/market_cap_analyzer.py *)

Module Analyzer.

(** [calculate_virtual_tokens(market_cap_sol, virtual_sol, total_supply)] *)
Definition calculate_virtual_tokens
    (market_cap_sol virtual_sol total_supply : Q) : result Q :=
  initial_price <- py_div market_cap_sol total_supply ;;
  q <- py_div virtual_sol initial_price ;;
  let virtual_tokens := q - total_supply in
  Ok (py_max 0 virtual_tokens).

(** [calculate_buy_cost(virtual_sol, virtual_tokens, total_supply, buy_amount)] *)
Definition calculate_buy_cost
    (virtual_sol virtual_tokens total_supply buy_amount : Q) : result Q :=
  let k := virtual_sol * (virtual_tokens + total_supply) in
  let remaining := total_supply - buy_amount in
  new_sol <- py_div k (virtual_tokens + remaining) ;;
  Ok (new_sol - virtual_sol).

(** The dictionary [analyze_market_cap] returns; [costs] keeps the
    insertion order of its keys, which the printing loop follows. *)
Record Config : Type := mkConfig {
  market_cap_usd : Q;
  market_cap_sol : Q;
  virtual_sol : Q;
  virtual_tokens : Q;
  initial_price_sol : Q;
  costs : list (string * Q)
}.

Definition default_sol_price_usd : Q := 200.
Definition default_virtual_sol : Q := 200.

(** [analyze_market_cap(market_cap_usd, sol_price_usd=200, virtual_sol=200)] *)
Definition analyze_market_cap (market_cap_usd sol_price_usd virtual_sol : Q)
    : result Config :=
  market_cap_sol <- py_div market_cap_usd sol_price_usd ;;
  let total_supply := 1000000000 in
  virtual_tokens <-
    calculate_virtual_tokens market_cap_sol virtual_sol total_supply ;;
  initial_price_sol <- py_div market_cap_sol total_supply ;;
  c10 <- calculate_buy_cost virtual_sol virtual_tokens total_supply
           (total_supply * (10 # 100)) ;;
  c25 <- calculate_buy_cost virtual_sol virtual_tokens total_supply
           (total_supply * (25 # 100)) ;;
  c50 <- calculate_buy_cost virtual_sol virtual_tokens total_supply
           (total_supply * (50 # 100)) ;;
  c75 <- calculate_buy_cost virtual_sol virtual_tokens total_supply
           (total_supply * (75 # 100)) ;;
  c90 <- calculate_buy_cost virtual_sol virtual_tokens total_supply
           (total_supply * (90 # 100)) ;;
  Ok (mkConfig market_cap_usd market_cap_sol virtual_sol virtual_tokens
        initial_price_sol
        [ ("10%"%string, c10); ("25%"%string, c25); ("50%"%string, c50);
          ("75%"%string, c75); ("90%"%string, c90) ]).

(** *** [print_market_cap_comparison] *)

Definition presets : list (string * Q) :=
  [ ("Micro Launch"%string, 4600);
    ("Small Launch"%string, 10000);
    ("Medium Launch"%string, 25000);
    ("Large Launch"%string, 50000);
    ("Premium Launch"%string, 100000) ].

(** The sign printed before a cost: lightning (fast/cheap), check mark
    (good), diamond (balanced), circle (expensive/slow). *)
Inductive Marker : Type :=
| Fast
| Good
| Balanced
| Expensive.

(** The [if cost < 10 ... elif cost < 50 ... elif cost < 100 ... else]
    chain. *)
Definition cost_marker (cost : Q) : Marker :=
  if negb (Qle_bool 10 cost) then Fast
  else if negb (Qle_bool 50 cost) then Good
  else if negb (Qle_bool 100 cost) then Balanced
  else Expensive.

(** The markers in the order of the chain, cheapest first. *)
Definition marker_rank (m : Marker) : nat :=
  match m with
  | Fast => 0
  | Good => 1
  | Balanced => 2
  | Expensive => 3
  end.

(** [for pct, cost in config['costs'].items()]: the lines printed. *)
Definition cost_lines (config : Config) : list (Marker * string * Q) :=
  map (fun '(pct, cost) => (cost_marker cost, pct, cost)) (costs config).

(** [print_market_cap_comparison()]: per preset, its configuration and
    cost lines. *)
Definition print_market_cap_comparison
    : result (list (string * Config * list (Marker * string * Q))) :=
  let sol_price := 200 in
  mapM (fun '(name, market_cap) =>
          config <- analyze_market_cap market_cap sol_price default_virtual_sol ;;
          Ok (name, config, cost_lines config))
       presets.

(** *** [whale_resistance_analysis] *)

Definition whale_presets : list (string * Q) :=
  [ ("Micro ($4.6k)"%string, 4600);
    ("Small ($10k)"%string, 10000);
    ("Medium ($25k)"%string, 25000);
    ("Large ($50k)"%string, 50000);
    ("Premium ($100k)"%string, 100000) ].

Definition whale_budgets : list Q := [10; 20; 50; 100; 200].

(** The body of the inner loop: the percentage one table cell prints. *)
Definition whale_resistance_cell (budget market_cap : Q) : result Q :=
  config <- analyze_market_cap market_cap default_sol_price_usd
              default_virtual_sol ;;
  let total_supply := 1000000000 in
  let k := virtual_sol config * (virtual_tokens config + total_supply) in
  let new_sol := virtual_sol config + budget in
  new_tokens <- py_div k new_sol ;;
  let tokens_bought := (virtual_tokens config + total_supply) - new_tokens in
  frac <- py_div tokens_bought total_supply ;;
  Ok (frac * 100).

(** [whale_resistance_analysis()]: one row of cells per budget. *)
Definition whale_resistance_analysis : result (list (list Q)) :=
  mapM (fun budget =>
          mapM (fun '(name, market_cap) =>
                  whale_resistance_cell budget market_cap)
               whale_presets)
       whale_budgets.

(** *** [sol_price_sensitivity] *)

Definition sol_prices : list Q := [100; 150; 200; 250; 300].

(** [sol_price_sensitivity()]: the configuration printed per SOL price. *)
Definition sol_price_sensitivity : result (list Config) :=
  let target_market_cap := 25000 in
  mapM (fun sol_price =>
          analyze_market_cap target_market_cap sol_price default_virtual_sol)
       sol_prices.

End Analyzer.

(** ** The same functions in binary64

    The scripts run on Python floats.  The definitions of this module
    repeat the source expressions with IEEE 754 binary64 operations
    (the kernel's primitive floats), in the source's order of evaluation;
    they are what the code computes, rounding and underflow included. *)

Module Binary64.

Local Open Scope float_scope.
Local Set Warnings "-inexact-float".

(** [x / y] of Python on floats: the divisor [0.0] (or [-0.0]) raises. *)
Definition py_div (x y : float) : result float :=
  if (y =? 0) then Raise ZeroDivisionError else Ok (x / y).

(** [max(a, b)] of Python: [b] only when [b > a]. *)
Definition py_max (a b : float) : float :=
  if (a <? b) then b else a.

Definition calculate_buy_cost
    (virtual_sol virtual_tokens real_tokens buy_amount : float)
    : result float :=
  let k := virtual_sol * (virtual_tokens + real_tokens) in
  let remaining := real_tokens - buy_amount in
  new_sol <- py_div k (virtual_tokens + remaining) ;;
  Ok (new_sol - virtual_sol).

Definition calculate_virtual_tokens
    (market_cap_sol virtual_sol total_supply : float) : result float :=
  initial_price <- py_div market_cap_sol total_supply ;;
  q <- py_div virtual_sol initial_price ;;
  let virtual_tokens := q - total_supply in
  Ok (py_max 0 virtual_tokens).

(** The state of the buyer loop and one pass of it (the numbers the
    loop carries on; the strings of the printed line are left out). *)
Record SimState : Type := mkSimState {
  remaining : float;
  total_sol : float
}.

Definition buyer_step (vsol vtok supply : float) (st : SimState)
    (sol_amount : float) : result (float * SimState) :=
  let k := (vsol + total_sol st) * (vtok + remaining st) in
  let new_sol := vsol + total_sol st + sol_amount in
  new_tokens <- py_div k new_sol ;;
  let tokens_bought := (vtok + remaining st) - new_tokens in
  frac <- py_div tokens_bought supply ;;
  avg_price <-
    (if (0 <? tokens_bought)
     then py_div sol_amount tokens_bought
     else Ok 0) ;;
  Ok (tokens_bought,
      mkSimState (remaining st - tokens_bought) (total_sol st + sol_amount)).

Fixpoint buyer_loop (vsol vtok supply : float) (st : SimState)
    (amounts : list float) : result SimState :=
  match amounts with
  | [] => Ok st
  | a :: rest =>
      r <- buyer_step vsol vtok supply st a ;;
      buyer_loop vsol vtok supply (snd r) rest
  end.

Definition pool_product (vsol vtok : float) (st : SimState) : float :=
  (vsol + total_sol st) * (vtok + remaining st).

(** A Python [int] used in float arithmetic (below 2^63 in absolute
    value; exact below 2^53). *)
Definition of_int (z : Z) : float :=
  if (z <? 0)%Z then - of_uint63 (Uint63.of_Z (- z))
  else of_uint63 (Uint63.of_Z z).

(** The loop body of [calculate_price_curve]: the three numbers appended
    to [tokens_bought], [prices] and [sol_spent]. *)
Definition price_curve_point
    (virtual_sol virtual_tokens real_tokens tokens_to_buy : float)
    : result (float * float * float) :=
  let k := virtual_sol * (virtual_tokens + real_tokens) in
  let remaining_tokens := real_tokens - tokens_to_buy in
  new_total_sol <- py_div k (virtual_tokens + remaining_tokens) ;;
  let sol_needed := new_total_sol - virtual_sol in
  current_price <-
    py_div (virtual_sol + sol_needed) (virtual_tokens + remaining_tokens) ;;
  Ok (tokens_to_buy / 1000000, current_price, sol_needed).

Definition calculate_price_curve
    (virtual_sol virtual_tokens real_tokens : float) (num_points : Z)
    : result (list (float * float * float)) :=
  increment <- py_div real_tokens (of_int num_points) ;;
  mapM (fun i =>
          price_curve_point virtual_sol virtual_tokens real_tokens
            (increment * of_int (i + 1)))
       (Simulator.py_range num_points).

Definition whale_purchase (vsol vtok supply budget : float)
    : result (float * float) :=
  let k := vsol * (vtok + supply) in
  let new_sol := vsol + budget in
  new_tokens <- py_div k new_sol ;;
  let tokens_bought := (vtok + supply) - new_tokens in
  frac <- py_div tokens_bought supply ;;
  Ok (tokens_bought, frac * 100).

(** [percentages = [i * 0.95 for i in range(101)]] with the float
    [0.95]. *)
Definition plot_percentages : list float :=
  map (fun i => of_int i * 0.95) (Simulator.py_range 101).

Definition plot_costs (vsol vtok supply : float) : result (list float) :=
  mapM (fun p => calculate_buy_cost vsol vtok supply (supply * p / 100))
       plot_percentages.

(** [analyze_market_cap]: the virtual tokens, the initial price and the
    five costs of the configuration. *)
Definition analyze_market_cap (market_cap_usd sol_price_usd virtual_sol : float)
    : result (float * float * list float) :=
  market_cap_sol <- py_div market_cap_usd sol_price_usd ;;
  let total_supply := 1000000000 in
  virtual_tokens <-
    calculate_virtual_tokens market_cap_sol virtual_sol total_supply ;;
  initial_price_sol <- py_div market_cap_sol total_supply ;;
  costs <-
    mapM (fun fraction =>
            calculate_buy_cost virtual_sol virtual_tokens total_supply
              (total_supply * fraction))
         [0.10; 0.25; 0.50; 0.75; 0.90] ;;
  Ok (virtual_tokens, initial_price_sol, costs).

Definition whale_resistance_cell (budget market_cap : float) : result float :=
  config <- analyze_market_cap market_cap 200 200 ;;
  let virtual_tokens := fst (fst config) in
  let total_supply := 1000000000 in
  let k := 200 * (virtual_tokens + total_supply) in
  let new_sol := 200 + budget in
  new_tokens <- py_div k new_sol ;;
  let tokens_bought := (virtual_tokens + total_supply) - new_tokens in
  frac <- py_div tokens_bought total_supply ;;
  Ok (frac * 100).

End Binary64.

(** ** Division *)

Lemma py_div_ok (x y : Q) : ~ y == 0 -> py_div x y = Ok (x / y).
Proof.
  intros Hy. unfold py_div.
  destruct (Qeq_bool y 0) eqn:E; [|reflexivity].
  apply Qeq_bool_iff in E. contradiction.
Qed.

Lemma py_div_raise (x y : Q) : y == 0 -> py_div x y = Raise ZeroDivisionError.
Proof.
  intros Hy. unfold py_div.
  apply Qeq_bool_iff in Hy. now rewrite Hy.
Qed.

Lemma py_div_raise_iff (x y : Q) :
  py_div x y = Raise ZeroDivisionError <-> y == 0.
Proof.
  split; [|apply py_div_raise].
  unfold py_div. destruct (Qeq_bool y 0) eqn:E; [|discriminate].
  intros _. now apply Qeq_bool_iff.
Qed.

Lemma py_max_spec (a b : Q) : py_max a b == Qmax a b.
Proof.
  unfold py_max. destruct (Qle_bool b a) eqn:E.
  - apply Qle_bool_iff in E. symmetry. now apply Q.max_l.
  - symmetry. apply Q.max_r. apply Qnot_lt_le. intros H.
    apply Qlt_le_weak, Qle_bool_iff in H. congruence.
Qed.

Lemma Qpos_neq0 (x : Q) : 0 < x -> ~ x == 0.
Proof. intros H E. rewrite E in H. now apply Qlt_irrefl in H. Qed.

(** The two scripts define the same [calculate_buy_cost]. *)
Lemma calculate_buy_cost_same (vs vt s t : Q) :
  Analyzer.calculate_buy_cost vs vt s t = Simulator.calculate_buy_cost vs vt s t.
Proof. reflexivity. Qed.

(** ** [calculate_buy_cost] *)

Section BuyCost.

Variables virtual_sol virtual_tokens supply : Q.

Let k : Q := virtual_sol * (virtual_tokens + supply).

(** The value of [calculate_buy_cost] wherever its divisor is not zero. *)
Lemma calculate_buy_cost_defined (t : Q) :
  ~ virtual_tokens + (supply - t) == 0 ->
  Simulator.calculate_buy_cost virtual_sol virtual_tokens supply t
  = Ok (k / (virtual_tokens + (supply - t)) - virtual_sol).
Proof.
  intros Hd. unfold Simulator.calculate_buy_cost.
  cbv zeta. rewrite (py_div_ok _ _ Hd). reflexivity.
Qed.

Lemma buy_divisor_pos (t : Q) :
  0 < virtual_tokens -> t <= supply -> 0 < virtual_tokens + (supply - t).
Proof. intros; lra. Qed.

Hypothesis virtual_sol_pos : 0 < virtual_sol.
Hypothesis virtual_tokens_pos : 0 < virtual_tokens.
Hypothesis supply_pos : 0 < supply.


(** C1. With positive curve parameters and [0 <= tokensToBuy < supply],
    [calculate_buy_cost] (of either script) returns
    [k / (virtual_tokens + (supply - tokensToBuy)) - virtual_sol], where
    [k = virtual_sol * (virtual_tokens + supply)]. *)
Theorem calculate_buy_cost_formula (tokensToBuy : Q) :
  0 <= tokensToBuy -> tokensToBuy < supply ->
  returns
    (Simulator.calculate_buy_cost virtual_sol virtual_tokens supply tokensToBuy)
    (virtual_sol * (virtual_tokens + supply)
       / (virtual_tokens + (supply - tokensToBuy)) - virtual_sol)
  /\ returns
    (Analyzer.calculate_buy_cost virtual_sol virtual_tokens supply tokensToBuy)
    (virtual_sol * (virtual_tokens + supply)
       / (virtual_tokens + (supply - tokensToBuy)) - virtual_sol).
Proof using virtual_sol_pos virtual_tokens_pos supply_pos.
  intros H0 Hlt.
  assert (Hd : ~ virtual_tokens + (supply - tokensToBuy) == 0)
    by (apply Qpos_neq0, buy_divisor_pos; lra).
  split; [|rewrite calculate_buy_cost_same];
    rewrite (calculate_buy_cost_defined _ Hd);
    eexists; (split; [reflexivity|]); unfold k; reflexivity.
Qed.




End BuyCost.

(** ** Where [calculate_buy_cost] raises *)

(** At 100% of the supply the divisor is [virtual_tokens], not zero: with
    the first preset the call returns 30 SOL.  So "raises iff
    [tokensToBuy >= supply]" fails at [tokensToBuy = supply]. *)
Lemma calculate_buy_cost_full_supply_returns :
  ~ (Simulator.calculate_buy_cost 30 1000000000 1000000000 1000000000
       = Raise ZeroDivisionError
     <-> 1000000000 <= 1000000000).
Proof.
  intros [_ H].
  assert (Hle : 1000000000 <= 1000000000) by apply Qle_refl.
  specialize (H Hle). vm_compute in H. discriminate H.
Qed.

(** Past the supply the call still returns (here 1.5 times the supply). *)
Example calculate_buy_cost_past_supply_returns :
  returns
    (Simulator.calculate_buy_cost 30 1000000000 1000000000 1500000000) 90.
Proof. eexists. split; [vm_compute; reflexivity|reflexivity]. Qed.

(** C4, as the code has it. [calculate_buy_cost] raises
    [ZeroDivisionError] exactly when the divisor it computes,
    [virtual_tokens + (supply - tokensToBuy)], is zero.  Having
    [tokensToBuy >= supply] does not make it so: at exactly
    [tokensToBuy = supply], with [virtual_tokens > 0], the call returns
    [k / (virtual_tokens + (supply - supply)) - virtual_sol]. *)
Theorem calculate_buy_cost_raises_iff
    (virtual_sol virtual_tokens supply tokensToBuy : Q) :
  (Simulator.calculate_buy_cost virtual_sol virtual_tokens supply tokensToBuy
     = Raise ZeroDivisionError
   <-> virtual_tokens + (supply - tokensToBuy) == 0)
  /\ (0 < virtual_tokens ->
      Simulator.calculate_buy_cost virtual_sol virtual_tokens supply supply
      = Ok (virtual_sol * (virtual_tokens + supply)
              / (virtual_tokens + (supply - supply)) - virtual_sol)).
Proof.
  split.
  - split.
    + intros H.
      destruct (Qeq_dec (virtual_tokens + (supply - tokensToBuy)) 0)
        as [E|E]; [exact E|].
      rewrite (calculate_buy_cost_defined _ _ _ _ E) in H. discriminate H.
    + intros E. unfold Simulator.calculate_buy_cost. cbv zeta.
      rewrite (py_div_raise _ _ E). reflexivity.
  - intros Hvt. apply calculate_buy_cost_defined. lra.
Qed.

(** With a positive [virtual_tokens], buying the whole supply returns
    [k / virtual_tokens - virtual_sol]. *)
Lemma whole_supply_cost
    (virtual_sol virtual_tokens supply : Q) :
  0 < virtual_tokens ->
  returns
    (Simulator.calculate_buy_cost virtual_sol virtual_tokens supply supply)
    (virtual_sol * (virtual_tokens + supply) / virtual_tokens - virtual_sol).
Proof.
  intros Hvt.
  assert (Hd : ~ virtual_tokens + (supply - supply) == 0)
    by (apply Qpos_neq0; lra).
  rewrite (calculate_buy_cost_defined _ _ _ _ Hd).
  eexists. split; [reflexivity|].
  assert (E : virtual_tokens + (supply - supply) == virtual_tokens) by lra.
  now rewrite E.
Qed.

(** ** The worked example of the specification *)

(** The cost of 1e8 tokens under 30 SOL / 1e9 / 1e9 is 30/19 = 1.578...,
    so it is not a number that reads 1.666... *)
Lemma example_cost_not_1_666 :
  ~ (exists cost,
       Simulator.calculate_buy_cost 30 1000000000 1000000000 100000000
         = Ok cost
       /\ cost == 30 * (1000000000 + 1000000000)
                    / (1000000000 + 900000000) - 30
       /\ 1666 # 1000 <= cost /\ cost < 1667 # 1000).
Proof.
  intros [cost [H [_ [Hlo _]]]].
  vm_compute in H. injection H as <-.
  revert Hlo. vm_compute. intros Hlo. apply Hlo. reflexivity.
Qed.

(** C6, as the code has it. For [virtual_sol = 30], [virtual_tokens = 1e9],
    [supply = 1e9] and [tokensToBuy = 1e8], [calculate_buy_cost] returns
    [k / (virtual_tokens + 9e8) - 30] with [k = 30 * (1e9 + 1e9)], which
    is 30/19, about 1.5789 SOL. *)
Theorem example_cost_value :
  exists cost,
    Simulator.calculate_buy_cost 30 1000000000 1000000000 100000000 = Ok cost
    /\ cost == 30 * (1000000000 + 1000000000)
                 / (1000000000 + 900000000) - 30
    /\ cost == 30 # 19
    /\ 15789 # 10000 < cost /\ cost < 15790 # 10000.
Proof.
  eexists. split; [vm_compute; reflexivity|].
  repeat split; vm_compute; reflexivity.
Qed.

(** ** [calculate_virtual_tokens] *)

Section VirtualTokens.

Variables targetMarketCapSol virtual_sol supply : Q.

Hypothesis target_pos : 0 < targetMarketCapSol.
Hypothesis virtual_sol_pos : 0 < virtual_sol.
Hypothesis supply_pos : 0 < supply.

Lemma initial_price_pos : 0 < targetMarketCapSol / supply.
Proof. apply Qlt_shift_div_l; lra. Qed.

(** Both divisions succeed; what is left is the clamp. *)
Lemma calculate_virtual_tokens_defined :
  Analyzer.calculate_virtual_tokens targetMarketCapSol virtual_sol supply
  = Ok (py_max 0 (virtual_sol / (targetMarketCapSol / supply) - supply)).
Proof.
  unfold Analyzer.calculate_virtual_tokens.
  rewrite (py_div_ok _ supply (Qpos_neq0 _ supply_pos)). cbn [bind].
  rewrite (py_div_ok _ _ (Qpos_neq0 _ initial_price_pos)). reflexivity.
Qed.

Lemma unclamped_two_ways :
  virtual_sol / (targetMarketCapSol / supply) - supply
  == virtual_sol * supply / targetMarketCapSol - supply.
Proof. field. split; lra. Qed.

(** C5, as the code has it. With positive arguments whose quotient
    [targetMarketCapSol / supply] is not zero, [calculate_virtual_tokens]
    returns [virtual_sol / (targetMarketCapSol / supply) - supply] clamped
    at zero, a number that is never negative; over the rationals this is
    [max 0 (virtual_sol * supply / targetMarketCapSol - supply)].  (Over
    the rationals the quotient of positive numbers is never zero; in
    binary64 it can underflow to zero, and then the second division
    raises.) *)
Theorem calculate_virtual_tokens_clamped :
  ~ targetMarketCapSol / supply == 0 ->
  exists virtual_tokens,
    Analyzer.calculate_virtual_tokens targetMarketCapSol virtual_sol supply
      = Ok virtual_tokens
    /\ virtual_tokens
       = py_max 0 (virtual_sol / (targetMarketCapSol / supply) - supply)
    /\ virtual_tokens
       == Qmax 0 (virtual_sol / (targetMarketCapSol / supply) - supply)
    /\ 0 <= virtual_tokens
    /\ virtual_tokens
       == Qmax 0 (virtual_sol * supply / targetMarketCapSol - supply).
Proof using target_pos virtual_sol_pos supply_pos.
  intros Hquot.
  unfold Analyzer.calculate_virtual_tokens.
  rewrite (py_div_ok _ supply (Qpos_neq0 _ supply_pos)). cbn [bind].
  rewrite (py_div_ok _ _ Hquot). cbn [bind].
  eexists. split; [reflexivity|]. split; [reflexivity|].
  split; [apply py_max_spec|].
  split.
  - rewrite py_max_spec. apply Q.le_max_l.
  - rewrite py_max_spec. now rewrite unclamped_two_ways.
Qed.

(** Which side of the clamp applies is decided by comparing the target
    market cap with [virtual_sol]. *)
Lemma unclamped_nonneg_iff :
  0 <= virtual_sol * supply / targetMarketCapSol - supply
  <-> targetMarketCapSol <= virtual_sol.
Proof.
  assert (E : virtual_sol * supply / targetMarketCapSol - supply
              == supply * (virtual_sol - targetMarketCapSol)
                   / targetMarketCapSol) by (field; lra).
  rewrite E. split; intros H.
  - apply Qnot_lt_le. intros Hlt.
    assert (Hneg : supply * (virtual_sol - targetMarketCapSol)
                     / targetMarketCapSol < 0).
    { apply Qlt_shift_div_r; [lra|]. nra. }
    lra.
  - apply Qle_shift_div_l; [lra|]. nra.
Qed.

Lemma calculate_virtual_tokens_unclamped :
  targetMarketCapSol <= virtual_sol ->
  returns
    (Analyzer.calculate_virtual_tokens targetMarketCapSol virtual_sol supply)
    (virtual_sol * supply / targetMarketCapSol - supply).
Proof.
  intros Hle. rewrite calculate_virtual_tokens_defined.
  eexists. split; [reflexivity|].
  rewrite py_max_spec, unclamped_two_ways.
  apply Q.max_r. now apply unclamped_nonneg_iff.
Qed.

Lemma calculate_virtual_tokens_at_clamp :
  virtual_sol <= targetMarketCapSol ->
  returns
    (Analyzer.calculate_virtual_tokens targetMarketCapSol virtual_sol supply)
    0.
Proof.
  intros Hle. rewrite calculate_virtual_tokens_defined.
  eexists. split; [reflexivity|].
  rewrite py_max_spec, unclamped_two_ways.
  apply Q.max_l.
  destruct (Qlt_le_dec 0 (virtual_sol * supply / targetMarketCapSol - supply))
    as [Hpos|Hneg]; [|exact Hneg].
  assert (H : targetMarketCapSol <= virtual_sol)
    by (apply unclamped_nonneg_iff; lra).
  assert (E : virtual_sol * supply / targetMarketCapSol - supply == 0).
  { assert (Ev : virtual_sol == targetMarketCapSol) by lra.
    rewrite Ev. field. lra. }
  lra.
Qed.

End VirtualTokens.

(** ** The spot price of [calculate_price_curve] *)

Section SpotPrice.

Variables virtual_sol virtual_tokens supply : Q.

(** A row of the curve wherever the divisor is not zero. *)
Lemma price_curve_point_defined (t : Q) :
  ~ virtual_tokens + (supply - t) == 0 ->
  Simulator.price_curve_point virtual_sol virtual_tokens supply t
  = Ok (Simulator.mkCurvePoint
          (t / 1000000)
          ((virtual_sol
            + (virtual_sol * (virtual_tokens + supply)
                 / (virtual_tokens + (supply - t)) - virtual_sol))
           / (virtual_tokens + (supply - t)))
          (virtual_sol * (virtual_tokens + supply)
             / (virtual_tokens + (supply - t)) - virtual_sol)).
Proof.
  intros Hd. unfold Simulator.price_curve_point. cbv zeta.
  rewrite (py_div_ok _ _ Hd). cbn [bind].
  rewrite (py_div_ok _ _ Hd). reflexivity.
Qed.

(** The row's [sol_needed] is the number [calculate_buy_cost] returns. *)
Lemma price_curve_point_sol_spent (t : Q) (pt : Simulator.CurvePoint) :
  Simulator.price_curve_point virtual_sol virtual_tokens supply t = Ok pt ->
  Simulator.calculate_buy_cost virtual_sol virtual_tokens supply t
  = Ok (Simulator.cp_sol_spent pt).
Proof.
  destruct (Qeq_dec (virtual_tokens + (supply - t)) 0) as [E|E].
  - unfold Simulator.price_curve_point. cbv zeta.
    rewrite (py_div_raise _ _ E). discriminate.
  - rewrite (price_curve_point_defined _ E).
    rewrite (calculate_buy_cost_defined _ _ _ _ E).
    intros H. injection H as <-. reflexivity.
Qed.

Hypothesis virtual_sol_pos : 0 < virtual_sol.
Hypothesis virtual_tokens_pos : 0 < virtual_tokens.
Hypothesis supply_pos : 0 < supply.

End SpotPrice.

(** ** The whole of [calculate_price_curve] *)

Section PriceCurve.

Variables virtual_sol virtual_tokens supply : Q.

Lemma py_range_bounds (n i : Z) :
  In i (Simulator.py_range n) -> (0 <= i < n)%Z.
Proof.
  unfold Simulator.py_range. rewrite in_map_iff.
  intros [j [<- Hj]]. apply in_seq in Hj. lia.
Qed.

Lemma py_range_length (n : Z) :
  List.length (Simulator.py_range n) = Z.to_nat n.
Proof. unfold Simulator.py_range. now rewrite length_map, length_seq. Qed.

(** The loop succeeds when every row does, and then the three lists grow
    by the three columns of the rows. *)
Lemma price_curve_loop_rows (increment : Q) (indices : list Z) :
  (forall i, In i indices ->
     ~ virtual_tokens + (supply - increment * inject_Z (i + 1)) == 0) ->
  forall tb pr ss,
  exists pts,
    Simulator.rows_of virtual_sol virtual_tokens supply increment indices pts
    /\ Simulator.price_curve_loop virtual_sol virtual_tokens supply increment
         indices tb pr ss
       = Ok (tb ++ map Simulator.cp_tokens_bought pts,
             pr ++ map Simulator.cp_price pts,
             ss ++ map Simulator.cp_sol_spent pts).
Proof.
  induction indices as [|i rest IH]; intros Hd tb pr ss.
  - exists []. split; [constructor|]. cbn. now rewrite !app_nil_r.
  - assert (Hi := Hd i (or_introl eq_refl)).
    assert (Hrest : forall j, In j rest ->
      ~ virtual_tokens + (supply - increment * inject_Z (j + 1)) == 0)
      by (intros j Hj; apply Hd; now right).
    pose proof (price_curve_point_defined virtual_sol virtual_tokens supply
                  _ Hi) as Hpt.
    cbn [Simulator.price_curve_loop]. cbv zeta. rewrite Hpt. cbn [bind].
    match goal with
    | |- context [Simulator.price_curve_loop _ _ _ _ rest ?a ?b ?c] =>
        destruct (IH Hrest a b c) as [pts [Hrows Hloop]]
    end.
    eexists (_ :: pts). split.
    + constructor; [exact Hpt|exact Hrows].
    + rewrite Hloop. cbn [map]. now rewrite <- !app_assoc.
Qed.

Hypothesis virtual_tokens_pos : 0 < virtual_tokens.
Hypothesis supply_pos : 0 < supply.

(** No grid point lies past the supply. *)
Lemma grid_point_le_supply (n i : Z) :
  (0 <= i < n)%Z -> supply / inject_Z n * inject_Z (i + 1) <= supply.
Proof.
  intros Hi.
  assert (Hn : 0 < inject_Z n).
  { change 0 with (inject_Z 0). rewrite <- Zlt_Qlt. lia. }
  assert (Hle : inject_Z (i + 1) <= inject_Z n)
    by (rewrite <- Zle_Qle; lia).
  assert (Hinc : 0 < supply / inject_Z n)
    by (apply Qlt_shift_div_l; lra).
  assert (E : supply == supply / inject_Z n * inject_Z n)
    by (field; lra).
  rewrite E at 2. apply Qmult_le_l; assumption.
Qed.

(** With positive [virtual_tokens] and [supply] and at least one point,
    [calculate_price_curve] returns: its three lists are the columns of
    [num_points] rows, row [i] being the loop body at
    [supply / num_points * (i + 1)]. *)
Lemma calculate_price_curve_rows (num_points : Z) :
  (0 < num_points)%Z ->
  exists pts,
    Simulator.rows_of virtual_sol virtual_tokens supply
      (supply / inject_Z num_points) (Simulator.py_range num_points) pts
    /\ List.length pts = Z.to_nat num_points
    /\ Simulator.calculate_price_curve virtual_sol virtual_tokens supply
         num_points
       = Ok (map Simulator.cp_tokens_bought pts,
             map Simulator.cp_price pts,
             map Simulator.cp_sol_spent pts).
Proof.
  intros Hn.
  assert (Hnq : ~ inject_Z num_points == 0).
  { apply Qpos_neq0. change 0 with (inject_Z 0). rewrite <- Zlt_Qlt. lia. }
  unfold Simulator.calculate_price_curve. cbv zeta.
  rewrite (py_div_ok _ _ Hnq). cbn [bind].
  destruct (price_curve_loop_rows (supply / inject_Z num_points)
              (Simulator.py_range num_points)) with (tb := @nil Q)
              (pr := @nil Q) (ss := @nil Q) as [pts [Hrows Hloop]].
  { intros i Hi. apply py_range_bounds in Hi.
    apply Qpos_neq0.
    pose proof (grid_point_le_supply num_points i Hi). lra. }
  exists pts. split; [exact Hrows|]. split.
  - rewrite <- py_range_length. symmetry.
    exact (Forall2_length Hrows).
  - exact Hloop.
Qed.

End PriceCurve.

(** Two points of the first preset: half the supply costs 10 SOL, the
    whole supply 30 SOL, at prices 40/1.5e9 and 60/1e9. *)
Example calculate_price_curve_two_points :
  exists tb pr ss,
    Simulator.calculate_price_curve 30 1000000000 1000000000 2
      = Ok (tb, pr, ss)
    /\ Forall2 Qeq tb [500; 1000]
    /\ Forall2 Qeq pr [40 / 1500000000; 60 / 1000000000]
    /\ Forall2 Qeq ss [10; 30].
Proof.
  do 3 eexists. split; [vm_compute; reflexivity|].
  repeat split; repeat constructor; vm_compute; reflexivity.
Qed.

(** ** Solving for the virtual tokens, then pricing at zero tokens sold *)

(** The "Large Launch" preset (50,000 USD at 200 USD per SOL, so 250 SOL)
    with the default 200 virtual SOL hits the clamp: the virtual tokens
    are 0 and the spot price at zero tokens sold is 200/1e9, not the
    target 250/1e9. *)
Lemma round_trip_fails_at_clamp :
  exists virtual_tokens pt,
    Analyzer.calculate_virtual_tokens 250 200 1000000000 = Ok virtual_tokens
    /\ Simulator.price_curve_point 200 virtual_tokens 1000000000 0 = Ok pt
    /\ Simulator.cp_price pt == 200 / (virtual_tokens + 1000000000)
    /\ ~ 200 / (virtual_tokens + 1000000000) == 250 / 1000000000.
Proof.
  do 2 eexists.
  split; [vm_compute; reflexivity|].
  split; [vm_compute; reflexivity|].
  split; [vm_compute; reflexivity|].
  vm_compute. discriminate.
Qed.

Section RoundTrip.

Variables targetMarketCapSol virtual_sol supply : Q.

Hypothesis target_pos : 0 < targetMarketCapSol.
Hypothesis virtual_sol_pos : 0 < virtual_sol.
Hypothesis supply_pos : 0 < supply.

(** The spot price at zero tokens sold, for any [virtual_tokens] that
    keeps the divisor positive. *)
Lemma spot_price_at_zero (virtual_tokens : Q) :
  0 < virtual_tokens + supply ->
  exists pt,
    Simulator.price_curve_point virtual_sol virtual_tokens supply 0 = Ok pt
    /\ Simulator.cp_price pt == virtual_sol / (virtual_tokens + supply).
Proof.
  intros Hpos.
  assert (Hd : ~ virtual_tokens + (supply - 0) == 0)
    by (apply Qpos_neq0; lra).
  rewrite (price_curve_point_defined _ _ _ _ Hd).
  eexists. split; [reflexivity|].
  cbn [Simulator.cp_price]. field. lra.
Qed.

(** C3, as the code has it. For positive arguments with
    [targetMarketCapSol <= virtual_sol], the virtual tokens that
    [calculate_virtual_tokens] returns make the spot price at zero tokens
    sold, [virtual_sol / (virtual_tokens + supply)], equal to the target
    initial price [targetMarketCapSol / supply]. *)
Theorem round_trip_initial_price :
  targetMarketCapSol <= virtual_sol ->
  exists virtual_tokens pt,
    Analyzer.calculate_virtual_tokens targetMarketCapSol virtual_sol supply
      = Ok virtual_tokens
    /\ Simulator.price_curve_point virtual_sol virtual_tokens supply 0 = Ok pt
    /\ Simulator.cp_price pt == virtual_sol / (virtual_tokens + supply)
    /\ virtual_sol / (virtual_tokens + supply) == targetMarketCapSol / supply.
Proof using target_pos virtual_sol_pos supply_pos.
  intros Hle.
  destruct (calculate_virtual_tokens_unclamped targetMarketCapSol virtual_sol
              supply target_pos supply_pos Hle)
    as [vt [Hvt Evt]].
  assert (Esum : vt + supply == virtual_sol * supply / targetMarketCapSol)
    by (rewrite Evt; field; lra).
  assert (Hpos : 0 < vt + supply).
  { rewrite Esum. apply Qlt_shift_div_l; [lra|]. nra. }
  destruct (spot_price_at_zero vt Hpos) as [pt [Hpt Eprice]].
  exists vt, pt. repeat split; try assumption.
  rewrite Esum. field. repeat split; lra.
Qed.

(** Past the clamp the spot price at zero tokens sold is
    [virtual_sol / supply], strictly below the target initial price. *)
Lemma round_trip_clamped :
  virtual_sol < targetMarketCapSol ->
  exists virtual_tokens pt,
    Analyzer.calculate_virtual_tokens targetMarketCapSol virtual_sol supply
      = Ok virtual_tokens
    /\ Simulator.price_curve_point virtual_sol virtual_tokens supply 0 = Ok pt
    /\ Simulator.cp_price pt == virtual_sol / supply
    /\ virtual_sol / supply < targetMarketCapSol / supply.
Proof.
  intros Hlt.
  destruct (calculate_virtual_tokens_at_clamp targetMarketCapSol virtual_sol
              supply target_pos supply_pos (Qlt_le_weak _ _ Hlt))
    as [vt [Hvt Evt]].
  assert (Hpos : 0 < vt + supply) by lra.
  destruct (spot_price_at_zero vt Hpos) as [pt [Hpt Eprice]].
  exists vt, pt. repeat split; try assumption.
  - rewrite Eprice.
    assert (E : vt + supply == supply) by lra. now rewrite E.
  - unfold Qdiv. apply Qmult_lt_r; [|exact Hlt].
    apply Qinv_lt_0_compat. exact supply_pos.
Qed.

End RoundTrip.

(** ** The buyer loop of [simulate_trading_scenario] *)

Section BuyerLoop.

Variables vsol vtok supply : Q.

(** One pass of the loop, when the two divisors [new_sol] and [supply]
    are not zero. *)
Lemma buyer_step_defined (st : Simulator.SimState) (name : string)
    (sol_amount : Q) :
  ~ vsol + Simulator.total_sol st + sol_amount == 0 ->
  ~ supply == 0 ->
  let tokens_bought :=
    (vtok + Simulator.remaining st)
    - (vsol + Simulator.total_sol st) * (vtok + Simulator.remaining st)
        / (vsol + Simulator.total_sol st + sol_amount) in
  exists line,
    Simulator.buyer_step vsol vtok supply st (name, sol_amount)
    = Ok (line,
          Simulator.mkSimState (Simulator.remaining st - tokens_bought)
                               (Simulator.total_sol st + sol_amount))
    /\ Simulator.bl_tokens_bought line = tokens_bought.
Proof.
  intros Hsol Hsup tb. unfold Simulator.buyer_step. cbv zeta.
  rewrite (py_div_ok _ _ Hsol). cbn [bind]. fold tb.
  rewrite (py_div_ok _ _ Hsup). cbn [bind].
  destruct (Qle_bool tb 0) eqn:E; cbn [negb].
  - cbn [bind]. eexists. split; reflexivity.
  - assert (Htb : ~ tb == 0).
    { intros Hz. assert (Hle : tb <= 0) by (rewrite Hz; apply Qle_refl).
      apply Qle_bool_iff in Hle. congruence. }
    rewrite (py_div_ok _ _ Htb). cbn [bind].
    eexists. split; reflexivity.
Qed.

(** A pass with a non-zero [new_sol] leaves the product where it was. *)
Lemma pool_product_step (st : Simulator.SimState) (sol_amount : Q) :
  ~ vsol + Simulator.total_sol st + sol_amount == 0 ->
  Simulator.pool_product vsol vtok
    (Simulator.mkSimState
       (Simulator.remaining st
        - ((vtok + Simulator.remaining st)
           - (vsol + Simulator.total_sol st) * (vtok + Simulator.remaining st)
               / (vsol + Simulator.total_sol st + sol_amount)))
       (Simulator.total_sol st + sol_amount))
  == Simulator.pool_product vsol vtok st.
Proof.
  intros Hsol. unfold Simulator.pool_product.
  cbn [Simulator.remaining Simulator.total_sol].
  field. exact Hsol.
Qed.

Hypothesis vsol_pos : 0 < vsol.
Hypothesis supply_pos : 0 < supply.

(** SOL only accumulates. *)
Lemma reachable_total_sol_nonneg (st : Simulator.SimState) :
  Simulator.reachable vsol vtok supply st -> 0 <= Simulator.total_sol st.
Proof using vsol_pos supply_pos.
  induction 1 as [|st name amt line st' Hreach IH Hamt Hstep].
  - cbn. apply Qle_refl.
  - assert (Hsol : ~ vsol + Simulator.total_sol st + amt == 0)
      by (apply Qpos_neq0; lra).
    destruct (buyer_step_defined st name amt Hsol (Qpos_neq0 _ supply_pos))
      as [line' [Hdef _]].
    rewrite Hdef in Hstep. injection Hstep as _ <-.
    cbn [Simulator.total_sol]. lra.
Qed.


(** The loop itself, over any list of buyers with positive amounts,
    returns, and ends in a reachable state. *)
Lemma buyer_loop_reachable (buyers : list (string * Q)) :
  Forall (fun b => 0 < snd b) buyers ->
  forall st,
    Simulator.reachable vsol vtok supply st ->
    exists lines st',
      Simulator.buyer_loop vsol vtok supply st buyers = Ok (lines, st')
      /\ List.length lines = List.length buyers
      /\ Simulator.reachable vsol vtok supply st'.
Proof using vsol_pos supply_pos.
  induction 1 as [|[name amt] rest Hamt Hrest IH]; intros st Hreach.
  - exists [], st. cbn. auto.
  - cbn [snd] in Hamt.
    pose proof (reachable_total_sol_nonneg st Hreach) as Hnn.
    assert (Hsol : ~ vsol + Simulator.total_sol st + amt == 0)
      by (apply Qpos_neq0; lra).
    destruct (buyer_step_defined st name amt Hsol (Qpos_neq0 _ supply_pos))
      as [line [Hdef _]].
    cbn [Simulator.buyer_loop]. rewrite Hdef. cbn [bind snd fst].
    match type of Hdef with
    | _ = Ok (_, ?s1) =>
        assert (Hreach1 : Simulator.reachable vsol vtok supply s1)
          by (eapply Simulator.reach_step; eauto);
        destruct (IH s1 Hreach1) as [lines [st' [Hloop [Hlen Hreach']]]]
    end.
    rewrite Hloop. cbn [bind fst snd].
    exists (line :: lines), st'. cbn [List.length]. auto.
Qed.

End BuyerLoop.

(** Both scenarios of the script run to the end with the product at its
    initial value. *)
Example run_scenario_current :
  exists lines st pct,
    Simulator.run_scenario 30 1000000000 = Ok (lines, st, pct)
    /\ Simulator.total_sol st == 1275 # 10
    /\ Simulator.pool_product 30 1000000000 st
       == 30 * (1000000000 + Simulator.supply).
Proof.
  do 3 eexists. split; [vm_compute; reflexivity|].
  split; vm_compute; reflexivity.
Qed.

Example run_scenario_optimized :
  exists lines st pct,
    Simulator.run_scenario 200 600000000 = Ok (lines, st, pct)
    /\ Simulator.total_sol st == 1275 # 10
    /\ Simulator.pool_product 200 600000000 st
       == 200 * (600000000 + Simulator.supply).
Proof.
  do 3 eexists. split; [vm_compute; reflexivity|].
  split; vm_compute; reflexivity.
Qed.

(** ** The budget-to-tokens computation of [whale_attack_analysis] *)

Section Whale.

Variables virtual_sol virtual_tokens supply budget : Q.

Hypothesis virtual_sol_pos : 0 < virtual_sol.
Hypothesis virtual_tokens_pos : 0 < virtual_tokens.
Hypothesis supply_pos : 0 < supply.
Hypothesis budget_pos : 0 < budget.

Lemma whale_purchase_defined :
  Simulator.whale_purchase virtual_sol virtual_tokens supply budget
  = Ok ((virtual_tokens + supply)
          - virtual_sol * (virtual_tokens + supply) / (virtual_sol + budget),
        ((virtual_tokens + supply)
          - virtual_sol * (virtual_tokens + supply) / (virtual_sol + budget))
          / supply * 100).
Proof.
  unfold Simulator.whale_purchase. cbv zeta.
  rewrite py_div_ok by (apply Qpos_neq0; lra). cbn [bind].
  rewrite py_div_ok by (apply Qpos_neq0; lra). reflexivity.
Qed.

(** What is left after the whale's purchase, virtual tokens included. *)
Lemma whale_divisor :
  virtual_tokens
  + (supply
     - ((virtual_tokens + supply)
        - virtual_sol * (virtual_tokens + supply) / (virtual_sol + budget)))
  == virtual_sol * (virtual_tokens + supply) / (virtual_sol + budget).
Proof. field. lra. Qed.

Lemma whale_divisor_pos :
  0 < virtual_sol * (virtual_tokens + supply) / (virtual_sol + budget).
Proof.
  apply Qlt_shift_div_l; [lra|].
  rewrite Qmult_0_l. apply Qmult_lt_0_compat; lra.
Qed.

(** C10. With positive curve parameters and a positive budget, the tokens
    [whale_attack_analysis] computes for the budget,
    [(virtual_tokens + supply) - k / (virtual_sol + budget)] with
    [k = virtual_sol * (virtual_tokens + supply)], cost exactly the
    budget under [calculate_buy_cost]. *)
Theorem whale_purchase_inverts_buy_cost :
  exists tokens_bought pct,
    Simulator.whale_purchase virtual_sol virtual_tokens supply budget
      = Ok (tokens_bought, pct)
    /\ tokens_bought
       = (virtual_tokens + supply)
         - virtual_sol * (virtual_tokens + supply) / (virtual_sol + budget)
    /\ returns
         (Simulator.calculate_buy_cost virtual_sol virtual_tokens supply
            tokens_bought)
         budget.
Proof using virtual_sol_pos virtual_tokens_pos supply_pos budget_pos.
  rewrite whale_purchase_defined.
  do 2 eexists. split; [reflexivity|]. split; [reflexivity|].
  pose proof whale_divisor as Ediv.
  pose proof whale_divisor_pos as Hpos.
  rewrite calculate_buy_cost_defined
    by (rewrite Ediv; apply Qpos_neq0; exact Hpos).
  eexists. split; [reflexivity|].
  rewrite Ediv. field. split; [|split]; lra.
Qed.

(** The tokens bought stay below the supply plus the virtual tokens, and
    are positive. *)
Lemma whale_tokens_bounds :
  exists tokens_bought pct,
    Simulator.whale_purchase virtual_sol virtual_tokens supply budget
      = Ok (tokens_bought, pct)
    /\ 0 < tokens_bought /\ tokens_bought < virtual_tokens + supply.
Proof.
  rewrite whale_purchase_defined.
  do 2 eexists. split; [reflexivity|].
  pose proof whale_divisor_pos as Hpos.
  split; [|lra].
  assert (Hlt : virtual_sol * (virtual_tokens + supply) / (virtual_sol + budget)
                < virtual_tokens + supply).
  { apply Qlt_shift_div_r; [lra|]. nra. }
  lra.
Qed.

End Whale.

(** ** The theorems at the first preset of the scripts

    30 virtual SOL, 1e9 virtual tokens, a supply of 1e9 tokens. *)

Ltac by_evaluation := vm_compute; first [reflexivity | discriminate].

Lemma calculate_buy_cost_formula_at_preset :
  0 < 30 /\ 0 < 1000000000 /\ 0 < 1000000000
  /\ 0 <= 100000000 /\ 100000000 < 1000000000
  /\ returns
       (Simulator.calculate_buy_cost 30 1000000000 1000000000 100000000)
       (30 * (1000000000 + 1000000000)
          / (1000000000 + (1000000000 - 100000000)) - 30)
  /\ returns
       (Analyzer.calculate_buy_cost 30 1000000000 1000000000 100000000)
       (30 * (1000000000 + 1000000000)
          / (1000000000 + (1000000000 - 100000000)) - 30).
Proof.
  split; [by_evaluation|]. split; [by_evaluation|]. split; [by_evaluation|].
  split; [by_evaluation|]. split; [by_evaluation|].
  apply (calculate_buy_cost_formula 30 1000000000 1000000000);
    by_evaluation.
Defined.



(** The "Medium Launch" preset: 25,000 USD at 200 USD per SOL is 125 SOL,
    against 200 virtual SOL. *)
Lemma calculate_virtual_tokens_clamped_at_preset :
  0 < 125 /\ 0 < 200 /\ 0 < 1000000000 /\ ~ 125 / 1000000000 == 0
  /\ exists virtual_tokens,
       Analyzer.calculate_virtual_tokens 125 200 1000000000 = Ok virtual_tokens
       /\ virtual_tokens = py_max 0 (200 / (125 / 1000000000) - 1000000000)
       /\ virtual_tokens == Qmax 0 (200 / (125 / 1000000000) - 1000000000)
       /\ 0 <= virtual_tokens
       /\ virtual_tokens == Qmax 0 (200 * 1000000000 / 125 - 1000000000).
Proof.
  split; [by_evaluation|]. split; [by_evaluation|]. split; [by_evaluation|].
  split; [by_evaluation|].
  apply (calculate_virtual_tokens_clamped 125 200 1000000000); by_evaluation.
Defined.

Lemma round_trip_initial_price_at_preset :
  0 < 125 /\ 0 < 200 /\ 0 < 1000000000 /\ 125 <= 200
  /\ exists virtual_tokens pt,
       Analyzer.calculate_virtual_tokens 125 200 1000000000 = Ok virtual_tokens
       /\ Simulator.price_curve_point 200 virtual_tokens 1000000000 0 = Ok pt
       /\ Simulator.cp_price pt == 200 / (virtual_tokens + 1000000000)
       /\ 200 / (virtual_tokens + 1000000000) == 125 / 1000000000.
Proof.
  split; [by_evaluation|]. split; [by_evaluation|]. split; [by_evaluation|].
  split; [by_evaluation|].
  apply (round_trip_initial_price 125 200 1000000000); by_evaluation.
Defined.


Lemma whale_purchase_inverts_buy_cost_at_preset :
  0 < 30 /\ 0 < 1000000000 /\ 0 < 1000000000 /\ 0 < 100
  /\ exists tokens_bought pct,
       Simulator.whale_purchase 30 1000000000 1000000000 100
         = Ok (tokens_bought, pct)
       /\ tokens_bought
          = (1000000000 + 1000000000)
            - 30 * (1000000000 + 1000000000) / (30 + 100)
       /\ returns
            (Simulator.calculate_buy_cost 30 1000000000 1000000000
               tokens_bought)
            100.
Proof.
  split; [by_evaluation|]. split; [by_evaluation|]. split; [by_evaluation|].
  split; [by_evaluation|].
  apply (whale_purchase_inverts_buy_cost 30 1000000000 1000000000 100);
    by_evaluation.
Defined.

(** * Further properties of the two scripts *)

(** ** Lists and loops *)

Lemma mapM_defined {A B : Type} (f : A -> result B) (g : A -> B)
    (l : list A) :
  (forall a, In a l -> f a = Ok (g a)) -> mapM f l = Ok (map g l).
Proof.
  induction l as [|a rest IH]; intros Hf; [reflexivity|].
  cbn [mapM map]. rewrite (Hf a (or_introl eq_refl)). cbn [bind].
  rewrite IH by (intros b Hb; apply Hf; now right). reflexivity.
Qed.

Lemma py_range_nth (n : Z) (i : nat) :
  (i < Z.to_nat n)%nat ->
  nth_error (Simulator.py_range n) i = Some (Z.of_nat i).
Proof.
  intros Hi. unfold Simulator.py_range.
  rewrite nth_error_map, nth_error_seq.
  destruct (Nat.ltb_spec i (Z.to_nat n)) as [_|Hge]; [reflexivity|lia].
Qed.

Lemma inject_Z_pos (z : Z) : (0 < z)%Z -> 0 < inject_Z z.
Proof. intros Hz. change 0 with (inject_Z 0). now rewrite <- Zlt_Qlt. Qed.

(** A positive number divided by a smaller positive divisor gives more. *)
Lemma Qdiv_lt_divisor (x d1 d2 : Q) :
  0 < x -> 0 < d2 -> d2 < d1 -> x / d1 < x / d2.
Proof.
  intros Hx H2 H12. unfold Qdiv.
  apply Qmult_lt_l; [exact Hx|].
  apply -> Qinv_lt_contravar; lra.
Qed.

Lemma Qdiv_lt_dividend (x y d : Q) : 0 < d -> x < y -> x / d < y / d.
Proof.
  intros Hd Hxy. unfold Qdiv. apply Qmult_lt_r; [|exact Hxy].
  now apply Qinv_lt_0_compat.
Qed.

Lemma Qdiv_pos (x d : Q) : 0 < x -> 0 < d -> 0 < x / d.
Proof. intros Hx Hd. apply Qlt_shift_div_l; lra. Qed.

(** ** The curve formulas: cost and price as functions of tokens sold *)

Section CurveFormulas.

Variables virtual_sol virtual_tokens supply : Q.

Hypothesis virtual_sol_pos : 0 < virtual_sol.
Hypothesis pool_pos : 0 < virtual_tokens + supply.

Lemma curve_k_pos : 0 < virtual_sol * (virtual_tokens + supply).
Proof. apply Qmult_lt_0_compat; assumption. Qed.

(** The cost formula is strictly increasing while the divisor stays
    positive. *)
Lemma cost_formula_lt (t1 t2 : Q) :
  t1 < t2 -> 0 < virtual_tokens + (supply - t2) ->
  virtual_sol * (virtual_tokens + supply) / (virtual_tokens + (supply - t1))
    - virtual_sol
  < virtual_sol * (virtual_tokens + supply) / (virtual_tokens + (supply - t2))
    - virtual_sol.
Proof.
  intros Hlt Hd.
  pose proof (Qdiv_lt_divisor _ (virtual_tokens + (supply - t1))
                (virtual_tokens + (supply - t2)) curve_k_pos Hd) as H.
  assert (Hd12 : virtual_tokens + (supply - t2)
                 < virtual_tokens + (supply - t1)) by lra.
  specialize (H Hd12). lra.
Qed.

(** So is the spot price. *)
Lemma price_formula_lt (t1 t2 : Q) :
  t1 < t2 -> 0 < virtual_tokens + (supply - t2) ->
  (virtual_sol
   + (virtual_sol * (virtual_tokens + supply)
        / (virtual_tokens + (supply - t1)) - virtual_sol))
    / (virtual_tokens + (supply - t1))
  < (virtual_sol
     + (virtual_sol * (virtual_tokens + supply)
          / (virtual_tokens + (supply - t2)) - virtual_sol))
      / (virtual_tokens + (supply - t2)).
Proof.
  intros Hlt Hd.
  set (d1 := virtual_tokens + (supply - t1)).
  set (d2 := virtual_tokens + (supply - t2)) in *.
  set (k := virtual_sol * (virtual_tokens + supply)).
  assert (Hd12 : d2 < d1) by (unfold d1, d2; lra).
  assert (Hd1 : 0 < d1) by lra.
  assert (Hk : 0 < k) by apply curve_k_pos.
  assert (H1 : 0 < k / d1) by now apply Qdiv_pos.
  assert (H2 : k / d1 < k / d2) by now apply Qdiv_lt_divisor.
  apply Qlt_trans with ((virtual_sol + (k / d2 - virtual_sol)) / d1).
  - apply Qdiv_lt_dividend; lra.
  - apply Qdiv_lt_divisor; lra.
Qed.

(** Buying a positive amount costs a positive amount. *)
Lemma cost_formula_pos (t : Q) :
  0 < t -> 0 < virtual_tokens + (supply - t) ->
  0 < virtual_sol * (virtual_tokens + supply)
        / (virtual_tokens + (supply - t)) - virtual_sol.
Proof.
  intros Ht Hd.
  pose proof (cost_formula_lt 0 t Ht Hd) as H.
  assert (E : virtual_sol * (virtual_tokens + supply)
                / (virtual_tokens + (supply - 0)) - virtual_sol == 0)
    by (field; lra).
  lra.
Qed.

End CurveFormulas.

(** ** [calculate_price_curve]: the lists it returns *)

Section PriceCurveLists.

Variables virtual_sol virtual_tokens supply : Q.

(** The loop in closed form, when no row divides by zero. *)
Lemma price_curve_loop_defined (increment : Q) (indices : list Z) :
  (forall i, In i indices ->
     ~ virtual_tokens + (supply - increment * inject_Z (i + 1)) == 0) ->
  forall tb pr ss,
    Simulator.price_curve_loop virtual_sol virtual_tokens supply increment
      indices tb pr ss
    = Ok (tb ++ map (fun i => increment * inject_Z (i + 1) / 1000000) indices,
          pr ++ map (fun i =>
                       (virtual_sol
                        + (virtual_sol * (virtual_tokens + supply)
                             / (virtual_tokens
                                + (supply - increment * inject_Z (i + 1)))
                           - virtual_sol))
                       / (virtual_tokens
                          + (supply - increment * inject_Z (i + 1))))
                  indices,
          ss ++ map (fun i =>
                       virtual_sol * (virtual_tokens + supply)
                         / (virtual_tokens
                            + (supply - increment * inject_Z (i + 1)))
                       - virtual_sol)
                  indices).
Proof.
  induction indices as [|i rest IH]; intros Hd tb pr ss.
  - cbn. now rewrite !app_nil_r.
  - cbn [Simulator.price_curve_loop]. cbv zeta.
    rewrite (price_curve_point_defined _ _ _ _ (Hd i (or_introl eq_refl))).
    cbn [bind Simulator.cp_tokens_bought Simulator.cp_price
         Simulator.cp_sol_spent].
    rewrite IH by (intros j Hj; apply Hd; now right).
    cbn [map]. now rewrite <- !app_assoc.
Qed.

(** X1. [calculate_price_curve] produces points only for a positive
    [num_points]: with [num_points = 0] the increment's division raises
    [ZeroDivisionError], and with a negative [num_points] the loop does
    not run and the three lists come back empty. *)
Theorem calculate_price_curve_no_points (num_points : Z) :
  (num_points <= 0)%Z ->
  Simulator.calculate_price_curve virtual_sol virtual_tokens supply num_points
  = if (num_points =? 0)%Z then Raise ZeroDivisionError else Ok ([], [], []).
Proof.
  intros Hn. unfold Simulator.calculate_price_curve. cbv zeta.
  destruct (Z.eqb_spec num_points 0) as [->|Hne].
  - rewrite py_div_raise by reflexivity. reflexivity.
  - assert (Hneg : inject_Z num_points < 0).
    { change 0 with (inject_Z 0). rewrite <- Zlt_Qlt. lia. }
    rewrite py_div_ok by lra. cbn [bind].
    unfold Simulator.py_range.
    replace (Z.to_nat num_points) with 0%nat by lia. reflexivity.
Qed.

Hypothesis virtual_tokens_pos : 0 < virtual_tokens.
Hypothesis supply_pos : 0 < supply.

Variable num_points : Z.
Hypothesis num_points_pos : (0 < num_points)%Z.

(** The amount bought at point [i] of the grid. *)
Let grid (i : nat) : Q :=
  supply / inject_Z num_points * inject_Z (Z.of_nat i + 1).

Lemma grid_divisor_pos (i : nat) :
  (i < Z.to_nat num_points)%nat -> 0 < virtual_tokens + (supply - grid i).
Proof using virtual_tokens_pos supply_pos num_points_pos.
  intros Hi.
  pose proof (grid_point_le_supply supply supply_pos num_points (Z.of_nat i))
    as Hle.
  unfold grid. assert (Hz : (0 <= Z.of_nat i < num_points)%Z) by lia.
  specialize (Hle Hz). lra.
Qed.

Lemma grid_lt (i j : nat) : (i < j)%nat -> grid i < grid j.
Proof using supply_pos num_points_pos.
  intros Hij. unfold grid. apply Qmult_lt_l.
  - apply Qdiv_pos; [exact supply_pos|now apply inject_Z_pos].
  - rewrite <- Zlt_Qlt. lia.
Qed.

Lemma grid_last :
  grid (Z.to_nat num_points - 1) == supply.
Proof using num_points_pos.
  unfold grid.
  replace (Z.of_nat (Z.to_nat num_points - 1) + 1)%Z with num_points by lia.
  field. pose proof (inject_Z_pos _ num_points_pos). lra.
Qed.

(** The three lists in closed form. *)
Lemma calculate_price_curve_defined :
  Simulator.calculate_price_curve virtual_sol virtual_tokens supply num_points
  = Ok (map (fun i => grid (Z.to_nat i) / 1000000)
            (Simulator.py_range num_points),
        map (fun i =>
               (virtual_sol
                + (virtual_sol * (virtual_tokens + supply)
                     / (virtual_tokens + (supply - grid (Z.to_nat i)))
                   - virtual_sol))
               / (virtual_tokens + (supply - grid (Z.to_nat i))))
            (Simulator.py_range num_points),
        map (fun i =>
               virtual_sol * (virtual_tokens + supply)
                 / (virtual_tokens + (supply - grid (Z.to_nat i)))
               - virtual_sol)
            (Simulator.py_range num_points)).
Proof using virtual_tokens_pos supply_pos num_points_pos.
  unfold Simulator.calculate_price_curve. cbv zeta.
  rewrite py_div_ok
    by (pose proof (inject_Z_pos _ num_points_pos); lra).
  cbn [bind].
  assert (Hgrid : forall i, In i (Simulator.py_range num_points) ->
            supply / inject_Z num_points * inject_Z (i + 1)
            = grid (Z.to_nat i)).
  { intros i Hi. apply py_range_bounds in Hi. unfold grid.
    now rewrite Z2Nat.id by lia. }
  rewrite price_curve_loop_defined.
  - cbn [app]. apply f_equal.
    apply f_equal2; [apply f_equal2|]; apply map_ext_in; intros i Hi;
      now rewrite (Hgrid i Hi).
  - intros i Hi. rewrite (Hgrid i Hi). apply Qpos_neq0, grid_divisor_pos.
    apply py_range_bounds in Hi. lia.
Qed.

Lemma nth_map_range {B : Type} (f : Z -> B) (i : nat) (b : B) :
  nth_error (map f (Simulator.py_range num_points)) i = Some b ->
  (i < Z.to_nat num_points)%nat /\ b = f (Z.of_nat i).
Proof.
  rewrite nth_error_map.
  destruct (Nat.lt_ge_cases i (Z.to_nat num_points)) as [Hlt|Hge].
  - rewrite (py_range_nth _ _ Hlt). cbn. intros H. injection H as <-. auto.
  - rewrite <- py_range_length in Hge. apply nth_error_None in Hge.
    rewrite Hge. discriminate.
Qed.

(** X4. Over the rationals, the last point of the curve is the whole
    supply: its [tokens_bought] entry is [supply / 1_000_000] and its
    [sol_spent] entry is the finite cost
    [virtual_sol * supply / virtual_tokens]. *)
Theorem calculate_price_curve_last_point :
  exists tb pr ss,
    Simulator.calculate_price_curve virtual_sol virtual_tokens supply
      num_points = Ok (tb, pr, ss)
    /\ exists t c,
         nth_error tb (Z.to_nat num_points - 1) = Some t
         /\ nth_error ss (Z.to_nat num_points - 1) = Some c
         /\ t == supply / 1000000
         /\ c == virtual_sol * supply / virtual_tokens.
Proof using virtual_tokens_pos supply_pos num_points_pos.
  rewrite calculate_price_curve_defined.
  do 3 eexists. split; [reflexivity|].
  assert (Hi : (Z.to_nat num_points - 1 < Z.to_nat num_points)%nat) by lia.
  rewrite !nth_error_map, (py_range_nth _ _ Hi). cbn [option_map].
  rewrite Nat2Z.id. do 2 eexists.
  split; [reflexivity|]. split; [reflexivity|].
  rewrite grid_last. split; [reflexivity|]. field. lra.
Qed.

Hypothesis virtual_sol_pos : 0 < virtual_sol.

(** X3. Over the rationals, along the curve everything rises: for
    [i < j] the tokens bought, the SOL spent and the spot price at point
    [i] are strictly below those at point [j]. *)
Theorem calculate_price_curve_increasing :
  exists tb pr ss,
    Simulator.calculate_price_curve virtual_sol virtual_tokens supply
      num_points = Ok (tb, pr, ss)
    /\ forall (i j : nat), (i < j)%nat ->
         (forall x y, nth_error tb i = Some x -> nth_error tb j = Some y ->
                      x < y)
         /\ (forall x y, nth_error pr i = Some x -> nth_error pr j = Some y ->
                         x < y)
         /\ (forall x y, nth_error ss i = Some x -> nth_error ss j = Some y ->
                         x < y).
Proof using virtual_sol_pos virtual_tokens_pos supply_pos num_points_pos.
  rewrite calculate_price_curve_defined.
  do 3 eexists. split; [reflexivity|].
  intros i j Hij.
  assert (Hpool : 0 < virtual_tokens + supply) by lra.
  repeat split; intros x y Hx Hy;
    apply nth_map_range in Hx; apply nth_map_range in Hy;
    destruct Hx as [Hi ->]; destruct Hy as [Hj ->];
    rewrite !Nat2Z.id;
    pose proof (grid_lt i j Hij) as Hg;
    pose proof (grid_divisor_pos j Hj) as Hd.
  - apply Qdiv_lt_dividend; [reflexivity|exact Hg].
  - now apply price_formula_lt.
  - now apply cost_formula_lt.
Qed.

End PriceCurveLists.

(** ** [calculate_price_curve]: when it returns, and what *)

Lemma py_range_In (n i : Z) :
  (0 <= i < n)%Z -> In i (Simulator.py_range n).
Proof.
  intros Hi. unfold Simulator.py_range. apply in_map_iff.
  exists (Z.to_nat i). split; [lia|]. apply in_seq. lia.
Qed.

(** A loop that returns has divided by zero at no index. *)
Lemma price_curve_loop_ok_inv (virtual_sol virtual_tokens supply increment : Q)
    (indices : list Z) :
  forall tb pr ss lists,
    Simulator.price_curve_loop virtual_sol virtual_tokens supply increment
      indices tb pr ss = Ok lists ->
    forall i, In i indices ->
      ~ virtual_tokens + (supply - increment * inject_Z (i + 1)) == 0.
Proof.
  induction indices as [|j rest IH]; intros tb pr ss lists Hok i Hi.
  - destruct Hi.
  - cbn [Simulator.price_curve_loop] in Hok. cbv zeta in Hok.
    destruct (Qeq_dec (virtual_tokens
                       + (supply - increment * inject_Z (j + 1))) 0)
      as [E|E].
    + unfold Simulator.price_curve_point in Hok. cbv zeta in Hok.
      rewrite (py_div_raise _ _ E) in Hok. discriminate Hok.
    + rewrite (price_curve_point_defined _ _ _ _ E) in Hok.
      cbn [bind] in Hok.
      destruct Hi as [<-|Hi]; [exact E|].
      exact (IH _ _ _ _ Hok i Hi).
Qed.

Section PriceCurveReturns.

Variables virtual_sol virtual_tokens supply : Q.
Variable num_points : Z.

(** The amount bought at index [i]: [increment * (i + 1)]. *)
Let amount (i : Z) : Q := supply / inject_Z num_points * inject_Z (i + 1).

(** The curve returns exactly when [num_points] is not zero and no index
    divides by zero. *)
Lemma calculate_price_curve_ok_iff :
  (exists lists,
     Simulator.calculate_price_curve virtual_sol virtual_tokens supply
       num_points = Ok lists)
  <-> num_points <> 0%Z
      /\ forall i, (0 <= i < num_points)%Z ->
           ~ virtual_tokens + (supply - amount i) == 0.
Proof.
  unfold Simulator.calculate_price_curve. cbv zeta. split.
  - intros [lists Hok].
    destruct (Z.eq_dec num_points 0) as [->|Hn].
    + rewrite py_div_raise in Hok by reflexivity. discriminate Hok.
    + split; [exact Hn|]. intros i Hi.
      rewrite py_div_ok in Hok
        by (intros E; apply Hn; apply (eq_sym (A := Z));
            now apply (proj1 (inject_Z_injective 0 num_points)) ).
      cbn [bind] in Hok.
      exact (price_curve_loop_ok_inv _ _ _ _ _ _ _ _ _ Hok i
               (py_range_In _ _ Hi)).
  - intros [Hn Hd].
    rewrite py_div_ok
      by (intros E; apply Hn; apply (eq_sym (A := Z));
          now apply (proj1 (inject_Z_injective 0 num_points))).
    cbn [bind]. eexists. apply price_curve_loop_defined.
    intros i Hi. apply Hd. now apply py_range_bounds.
Qed.

(** What it returns, entry by entry. *)
Lemma calculate_price_curve_entries (tb pr ss : list Q) :
  Simulator.calculate_price_curve virtual_sol virtual_tokens supply num_points
    = Ok (tb, pr, ss) ->
  List.length tb = Z.to_nat num_points
  /\ List.length pr = Z.to_nat num_points
  /\ List.length ss = Z.to_nat num_points
  /\ forall i, (i < Z.to_nat num_points)%nat ->
       let t := amount (Z.of_nat i) in
       let cost :=
         virtual_sol * (virtual_tokens + supply)
           / (virtual_tokens + (supply - t)) - virtual_sol in
       Simulator.calculate_buy_cost virtual_sol virtual_tokens supply t
         = Ok cost
       /\ nth_error tb i = Some (t / 1000000)
       /\ nth_error ss i = Some cost
       /\ nth_error pr i
          = Some ((virtual_sol + cost) / (virtual_tokens + (supply - t))).
Proof.
  intros Hok.
  assert (Hex : exists lists,
            Simulator.calculate_price_curve virtual_sol virtual_tokens supply
              num_points = Ok lists) by (eexists; exact Hok).
  apply calculate_price_curve_ok_iff in Hex. destruct Hex as [Hn Hd].
  revert Hok. unfold Simulator.calculate_price_curve. cbv zeta.
  rewrite py_div_ok
    by (intros E; apply Hn; apply (eq_sym (A := Z));
        now apply (proj1 (inject_Z_injective 0 num_points))).
  cbn [bind].
  rewrite price_curve_loop_defined
    by (intros i Hi; apply Hd; now apply py_range_bounds).
  cbn [app]. intros Hok. injection Hok as <- <- <-.
  rewrite !length_map, py_range_length.
  repeat (split; [reflexivity|]).
  intros i Hi.
  rewrite !nth_error_map, (py_range_nth _ _ Hi). cbn [option_map].
  split; [|repeat split].
  apply calculate_buy_cost_defined. apply Hd. lia.
Qed.

End PriceCurveReturns.

(** C8. With positive curve parameters, the spot price that
    [calculate_price_curve] computes is
    [(virtual_sol + solSpent) / (virtual_tokens + remaining)], where
    [remaining = supply - tokensSold] and [solSpent] is what
    [calculate_buy_cost] returns for [tokensSold]: the loop body returns
    this for every [0 <= tokensSold < supply]; whenever the function
    returns its lists, entry [i] of [prices] is this value at
    [tokensSold = supply / num_points * (i + 1)], with entry [i] of
    [sol_spent] as [solSpent]; and it returns them for every positive
    [num_points] for which no entry divides by zero. *)
Theorem spot_price_formula (virtual_sol virtual_tokens supply : Q) :
  0 < virtual_sol -> 0 < virtual_tokens -> 0 < supply ->
  (forall tokensSold, 0 <= tokensSold -> tokensSold < supply ->
     exists pt solSpent,
       Simulator.price_curve_point virtual_sol virtual_tokens supply
         tokensSold = Ok pt
       /\ Simulator.calculate_buy_cost virtual_sol virtual_tokens supply
            tokensSold = Ok solSpent
       /\ Simulator.cp_sol_spent pt = solSpent
       /\ Simulator.cp_price pt
          == (virtual_sol + solSpent)
               / (virtual_tokens + (supply - tokensSold)))
  /\ (forall num_points tokens_bought prices sol_spent,
        Simulator.calculate_price_curve virtual_sol virtual_tokens supply
          num_points = Ok (tokens_bought, prices, sol_spent) ->
        List.length prices = Z.to_nat num_points
        /\ forall i, (i < Z.to_nat num_points)%nat ->
             let tokensSold :=
               supply / inject_Z num_points * inject_Z (Z.of_nat i + 1) in
             exists solSpent,
               Simulator.calculate_buy_cost virtual_sol virtual_tokens supply
                 tokensSold = Ok solSpent
               /\ nth_error sol_spent i = Some solSpent
               /\ nth_error prices i
                  = Some ((virtual_sol + solSpent)
                            / (virtual_tokens + (supply - tokensSold))))
  /\ (forall num_points, (0 < num_points)%Z ->
        (forall i, (0 <= i < num_points)%Z ->
           ~ virtual_tokens
             + (supply - supply / inject_Z num_points * inject_Z (i + 1))
             == 0) ->
        exists tokens_bought prices sol_spent,
          Simulator.calculate_price_curve virtual_sol virtual_tokens supply
            num_points = Ok (tokens_bought, prices, sol_spent)).
Proof.
  intros Hvs Hvt Hs. split; [|split].
  - intros t H0 Hlt.
    assert (Hd : ~ virtual_tokens + (supply - t) == 0)
      by (apply Qpos_neq0; lra).
    rewrite (price_curve_point_defined _ _ _ _ Hd).
    rewrite (calculate_buy_cost_defined _ _ _ _ Hd).
    do 2 eexists. repeat split; reflexivity.
  - intros n tb pr ss Hok.
    destruct (calculate_price_curve_entries _ _ _ _ _ _ _ Hok)
      as [_ [Hlen [_ Hentries]]].
    split; [exact Hlen|]. intros i Hi t.
    destruct (Hentries i Hi) as [Hcost [_ [Hss Hpr]]].
    eexists. split; [exact Hcost|]. split; [exact Hss|exact Hpr].
  - intros n Hn Hd.
    destruct (proj2 (calculate_price_curve_ok_iff virtual_sol virtual_tokens
                       supply n)) as [[[tb pr] ss] Hok].
    + split; [lia|exact Hd].
    + now exists tb, pr, ss.
Qed.

(** X2. [calculate_price_curve] returns its lists exactly when
    [num_points] is not zero and no index [i] of [range(num_points)] has
    the divisor [virtual_tokens + (supply - supply / num_points * (i + 1))]
    equal to zero.  The lists then have [num_points] entries (none for a
    negative [num_points]); entry [i] of [tokens_bought] is
    [supply / num_points * (i + 1)] in millions, and entry [i] of
    [sol_spent] is what [calculate_buy_cost] returns for that amount. *)
Theorem calculate_price_curve_costs
    (virtual_sol virtual_tokens supply : Q) (num_points : Z) :
  ((exists lists,
      Simulator.calculate_price_curve virtual_sol virtual_tokens supply
        num_points = Ok lists)
   <-> num_points <> 0%Z
       /\ forall i, (0 <= i < num_points)%Z ->
            ~ virtual_tokens
              + (supply - supply / inject_Z num_points * inject_Z (i + 1))
              == 0)
  /\ (forall tb pr ss,
        Simulator.calculate_price_curve virtual_sol virtual_tokens supply
          num_points = Ok (tb, pr, ss) ->
        List.length tb = Z.to_nat num_points
        /\ List.length pr = Z.to_nat num_points
        /\ List.length ss = Z.to_nat num_points
        /\ forall i, (i < Z.to_nat num_points)%nat ->
             let t :=
               supply / inject_Z num_points * inject_Z (Z.of_nat i + 1) in
             nth_error tb i = Some (t / 1000000)
             /\ exists c,
                  nth_error ss i = Some c
                  /\ Simulator.calculate_buy_cost virtual_sol virtual_tokens
                       supply t = Ok c).
Proof.
  split; [apply calculate_price_curve_ok_iff|].
  intros tb pr ss Hok.
  destruct (calculate_price_curve_entries _ _ _ _ _ _ _ Hok)
    as [Htb [Hpr [Hss Hentries]]].
  repeat (split; [assumption|]).
  intros i Hi t. destruct (Hentries i Hi) as [Hcost [Ht [Hc _]]].
  split; [exact Ht|]. eexists. split; [exact Hc|exact Hcost].
Qed.

Lemma calculate_price_curve_no_points_at_minus_one :
  (-1 <= 0)%Z
  /\ Simulator.calculate_price_curve 30 1000000000 1000000000 (-1)
     = Ok ([], [], []).
Proof.
  split; [discriminate|].
  apply (calculate_price_curve_no_points 30 1000000000 1000000000 (-1)).
  discriminate.
Defined.

Lemma calculate_price_curve_last_point_at_preset :
  0 < 1000000000 /\ 0 < 1000000000 /\ (0 < 100)%Z
  /\ exists tb pr ss,
       Simulator.calculate_price_curve 30 1000000000 1000000000 100
         = Ok (tb, pr, ss)
       /\ exists t c,
            nth_error tb (Z.to_nat 100 - 1) = Some t
            /\ nth_error ss (Z.to_nat 100 - 1) = Some c
            /\ t == 1000000000 / 1000000
            /\ c == 30 * 1000000000 / 1000000000.
Proof.
  split; [by_evaluation|]. split; [by_evaluation|]. split; [reflexivity|].
  apply (calculate_price_curve_last_point 30 1000000000 1000000000);
    by_evaluation.
Defined.

Lemma calculate_price_curve_increasing_at_preset :
  0 < 1000000000 /\ 0 < 1000000000 /\ (0 < 100)%Z /\ 0 < 30
  /\ exists tb pr ss,
       Simulator.calculate_price_curve 30 1000000000 1000000000 100
         = Ok (tb, pr, ss)
       /\ forall (i j : nat), (i < j)%nat ->
            (forall x y, nth_error tb i = Some x -> nth_error tb j = Some y ->
                         x < y)
            /\ (forall x y, nth_error pr i = Some x ->
                            nth_error pr j = Some y -> x < y)
            /\ (forall x y, nth_error ss i = Some x ->
                            nth_error ss j = Some y -> x < y).
Proof.
  split; [by_evaluation|]. split; [by_evaluation|]. split; [reflexivity|].
  split; [by_evaluation|].
  apply (calculate_price_curve_increasing 30 1000000000 1000000000);
    by_evaluation.
Defined.

(** ** More on the buyer loop of [simulate_trading_scenario] *)

Section BuyerLoopMore.

Variables vsol vtok supply : Q.

(** One pass in full, when it buys a positive number of tokens. *)
Lemma buyer_step_positive (st : Simulator.SimState) (name : string)
    (sol_amount : Q) :
  ~ vsol + Simulator.total_sol st + sol_amount == 0 ->
  ~ supply == 0 ->
  let tokens_bought :=
    (vtok + Simulator.remaining st)
    - (vsol + Simulator.total_sol st) * (vtok + Simulator.remaining st)
        / (vsol + Simulator.total_sol st + sol_amount) in
  0 < tokens_bought ->
  Simulator.buyer_step vsol vtok supply st (name, sol_amount)
  = Ok (Simulator.mkBuyerLine name tokens_bought
          (tokens_bought / supply * 100) (sol_amount / tokens_bought),
        Simulator.mkSimState (Simulator.remaining st - tokens_bought)
                             (Simulator.total_sol st + sol_amount)).
Proof.
  intros Hsol Hsup tb Htb. unfold Simulator.buyer_step. cbv zeta.
  rewrite (py_div_ok _ _ Hsol). cbn [bind]. fold tb.
  rewrite (py_div_ok _ _ Hsup). cbn [bind].
  destruct (Qle_bool tb 0) eqn:E.
  - apply Qle_bool_iff in E. lra.
  - cbn [negb]. rewrite py_div_ok by lra. reflexivity.
Qed.

(** The tokens a pass buys, in one fraction. *)
Lemma tokens_bought_fraction (n d a : Q) :
  ~ n + a == 0 -> d - n * d / (n + a) == d * a / (n + a).
Proof. intros H. field. exact H. Qed.

Hypothesis vsol_pos : 0 < vsol.
Hypothesis supply_pos : 0 < supply.
Hypothesis pool_pos : 0 < vtok + supply.

Lemma reachable_pool_product (st : Simulator.SimState) :
  Simulator.reachable vsol vtok supply st ->
  Simulator.pool_product vsol vtok st == vsol * (vtok + supply).
Proof using vsol_pos supply_pos.
  induction 1 as [|st name amt line st' Hreach IH Hamt Hstep].
  - unfold Simulator.pool_product, Simulator.initial_state. cbn. ring.
  - pose proof (reachable_total_sol_nonneg vsol vtok supply vsol_pos
                  supply_pos st Hreach) as Hnn.
    assert (Hsol : ~ vsol + Simulator.total_sol st + amt == 0)
      by (apply Qpos_neq0; lra).
    destruct (buyer_step_defined vsol vtok supply st name amt Hsol
                (Qpos_neq0 _ supply_pos)) as [line' [Hdef _]].
    rewrite Hdef in Hstep. injection Hstep as _ <-.
    rewrite (pool_product_step vsol vtok st amt Hsol). exact IH.
Qed.

(** The token side of the pool, virtual tokens included, in closed form. *)
Lemma reachable_pool_tokens (st : Simulator.SimState) :
  Simulator.reachable vsol vtok supply st ->
  0 <= Simulator.total_sol st
  /\ vtok + Simulator.remaining st
     == vsol * (vtok + supply) / (vsol + Simulator.total_sol st)
  /\ 0 < vtok + Simulator.remaining st.
Proof using vsol_pos supply_pos pool_pos.
  intros Hreach.
  pose proof (reachable_total_sol_nonneg vsol vtok supply vsol_pos
                supply_pos st Hreach) as Hnn.
  pose proof (reachable_pool_product st Hreach) as Hprod.
  unfold Simulator.pool_product in Hprod.
  assert (E : vtok + Simulator.remaining st
              == vsol * (vtok + supply) / (vsol + Simulator.total_sol st)).
  { rewrite <- Hprod. field. lra. }
  split; [exact Hnn|]. split; [exact E|].
  rewrite E. apply Qdiv_pos; [|lra]. apply Qmult_lt_0_compat; lra.
Qed.


(** X8. Over the rationals, from a reachable state a buyer with a
    positive amount gets a positive number of tokens, the average price
    is [sol_amount / tokens_bought], and it lies strictly between the spot
    price before the purchase and the spot price after it.  (In binary64
    a tiny amount can buy 0.0 tokens; this is the case the [else 0] of
    the source catches.) *)
Theorem buyer_step_average_price (st : Simulator.SimState) (name : string)
    (sol_amount : Q) :
  Simulator.reachable vsol vtok supply st ->
  0 < sol_amount ->
  exists line st',
    Simulator.buyer_step vsol vtok supply st (name, sol_amount)
      = Ok (line, st')
    /\ 0 < Simulator.bl_tokens_bought line
    /\ Simulator.bl_avg_price line
       = sol_amount / Simulator.bl_tokens_bought line
    /\ (vsol + Simulator.total_sol st) / (vtok + Simulator.remaining st)
       < Simulator.bl_avg_price line
    /\ Simulator.bl_avg_price line
       < (vsol + Simulator.total_sol st') / (vtok + Simulator.remaining st').
Proof using vsol_pos supply_pos pool_pos.
  intros Hreach Hamt.
  destruct (reachable_pool_tokens st Hreach) as [Hnn [_ Hpos]].
  set (n := vsol + Simulator.total_sol st) in *.
  set (d := vtok + Simulator.remaining st) in *.
  assert (Hn : 0 < n) by (unfold n; lra).
  assert (Hna : ~ n + sol_amount == 0) by (apply Qpos_neq0; lra).
  pose proof (tokens_bought_fraction n d sol_amount Hna) as Etb.
  assert (Htb : 0 < d - n * d / (n + sol_amount)).
  { rewrite Etb. apply Qdiv_pos; [|lra]. now apply Qmult_lt_0_compat. }
  pose proof (buyer_step_positive st name sol_amount Hna
                (Qpos_neq0 _ supply_pos) Htb) as Hstep.
  fold n d in Hstep.
  do 2 eexists. split; [exact Hstep|].
  cbn [Simulator.bl_tokens_bought Simulator.bl_avg_price
       Simulator.remaining Simulator.total_sol].
  split; [exact Htb|]. split; [reflexivity|].
  assert (Eavg : sol_amount / (d - n * d / (n + sol_amount))
                 == (n + sol_amount) / d)
    by (rewrite Etb; field; repeat split; lra).
  assert (Eafter : vtok + (Simulator.remaining st
                           - (d - n * d / (n + sol_amount)))
                   == n * d / (n + sol_amount))
    by (unfold d; field; exact Hna).
  assert (Esol : vsol + (Simulator.total_sol st + sol_amount)
                 == n + sol_amount) by (unfold n; ring).
  rewrite Eavg, Eafter, Esol. split.
  - apply Qdiv_lt_dividend; lra.
  - assert (Hlt : n * d / (n + sol_amount) < d).
    { apply Qlt_shift_div_r; [lra|]. nra. }
    apply Qdiv_lt_divisor; [lra| |exact Hlt].
    apply Qdiv_pos; [|lra]. now apply Qmult_lt_0_compat.
Qed.

(** X9. Over the rationals, over any list of buyers with positive
    amounts the loop returns one line per buyer, in order; the final
    [total_sol] is the initial one plus the sum of the amounts, and the
    final [remaining] is the initial one minus the sum of the tokens
    bought. *)
Theorem buyer_loop_totals (buyers : list (string * Q)) :
  Forall (fun b => 0 < snd b) buyers ->
  forall st,
    Simulator.reachable vsol vtok supply st ->
    exists lines st',
      Simulator.buyer_loop vsol vtok supply st buyers = Ok (lines, st')
      /\ map Simulator.bl_name lines = map fst buyers
      /\ Simulator.total_sol st'
         == Simulator.total_sol st + Qsum (map snd buyers)
      /\ Simulator.remaining st'
         == Simulator.remaining st
            - Qsum (map Simulator.bl_tokens_bought lines).
Proof using vsol_pos supply_pos.
  induction 1 as [|[name amt] rest Hamt Hrest IH]; intros st Hreach.
  - exists [], st. cbn. repeat split; try reflexivity; ring.
  - cbn [snd] in Hamt.
    pose proof (reachable_total_sol_nonneg vsol vtok supply vsol_pos
                  supply_pos st Hreach) as Hnn.
    assert (Hsol : ~ vsol + Simulator.total_sol st + amt == 0)
      by (apply Qpos_neq0; lra).
    destruct (buyer_step_defined vsol vtok supply st name amt Hsol
                (Qpos_neq0 _ supply_pos)) as [line [Hdef Htb]].
    assert (Hname : Simulator.bl_name line = name).
    { revert Hdef. unfold Simulator.buyer_step. cbv zeta.
      rewrite (py_div_ok _ _ Hsol). cbn [bind].
      rewrite (py_div_ok _ _ (Qpos_neq0 _ supply_pos)). cbn [bind].
      destruct (negb _); [destruct (py_div amt _)|]; cbn [bind];
        intros H; try discriminate H; injection H as <-; reflexivity. }
    cbn [Simulator.buyer_loop]. rewrite Hdef. cbn [bind snd fst].
    match type of Hdef with
    | _ = Ok (_, ?s1) =>
        assert (Hreach1 : Simulator.reachable vsol vtok supply s1)
          by (eapply Simulator.reach_step; eauto);
        destruct (IH s1 Hreach1) as [lines [st' [Hloop [Hn [Ht Hr]]]]]
    end.
    rewrite Hloop. cbn [bind fst snd].
    exists (line :: lines), st'. split; [reflexivity|].
    cbn [map fst snd Qsum fold_right]. fold (Qsum (map snd rest)).
    fold (Qsum (map Simulator.bl_tokens_bought lines)).
    split; [now rewrite Hname, Hn|].
    cbn [Simulator.total_sol Simulator.remaining] in Ht, Hr.
    rewrite Ht, Hr, Htb. split; ring.
Qed.

(** X6. Over the rationals, splitting a purchase changes nothing: from
    a state with [vsol + total_sol > 0], a pass with [a] followed by a
    pass with [b] ends where one pass with [a + b] ends, and the two
    passes buy together the tokens the single pass buys. *)
Theorem buyer_step_splits (st : Simulator.SimState) (n1 n2 n12 : string)
    (a b : Q) :
  0 < vsol + Simulator.total_sol st -> 0 < a -> 0 < b ->
  exists l1 s1 l2 s2 l12 s12,
    Simulator.buyer_step vsol vtok supply st (n1, a) = Ok (l1, s1)
    /\ Simulator.buyer_step vsol vtok supply s1 (n2, b) = Ok (l2, s2)
    /\ Simulator.buyer_step vsol vtok supply st (n12, a + b) = Ok (l12, s12)
    /\ Simulator.remaining s2 == Simulator.remaining s12
    /\ Simulator.total_sol s2 == Simulator.total_sol s12
    /\ Simulator.bl_tokens_bought l1 + Simulator.bl_tokens_bought l2
       == Simulator.bl_tokens_bought l12.
Proof using supply_pos.
  intros Hn Ha Hb.
  assert (Hsup : ~ supply == 0) by (apply Qpos_neq0, supply_pos).
  assert (H1 : ~ vsol + Simulator.total_sol st + a == 0)
    by (apply Qpos_neq0; lra).
  assert (H12 : ~ vsol + Simulator.total_sol st + (a + b) == 0)
    by (apply Qpos_neq0; lra).
  destruct (buyer_step_defined vsol vtok supply st n1 a H1 Hsup)
    as [l1 [Hd1 Ht1]].
  destruct (buyer_step_defined vsol vtok supply st n12 (a + b) H12 Hsup)
    as [l12 [Hd12 Ht12]].
  match type of Hd1 with
  | _ = Ok (_, ?s) => set (s1 := s) in *
  end.
  assert (H2 : ~ vsol + Simulator.total_sol s1 + b == 0)
    by (apply Qpos_neq0; unfold s1; cbn [Simulator.total_sol]; lra).
  destruct (buyer_step_defined vsol vtok supply s1 n2 b H2 Hsup)
    as [l2 [Hd2 Ht2]].
  do 6 eexists.
  split; [exact Hd1|]. split; [exact Hd2|]. split; [exact Hd12|].
  rewrite Ht1, Ht2, Ht12. unfold s1.
  cbn [Simulator.remaining Simulator.total_sol].
  assert (H2' : ~ vsol + (Simulator.total_sol st + a) + b == 0)
    by (apply Qpos_neq0; lra).
  repeat split; try ring; field; repeat split; assumption.
Qed.

End BuyerLoopMore.




Lemma buyer_step_average_price_at_start :
  0 < 30 /\ 0 < 1000000000 /\ 0 < 1000000000 + 1000000000
  /\ Simulator.reachable 30 1000000000 1000000000
       (Simulator.initial_state 1000000000)
  /\ 0 < 2
  /\ exists line st',
       Simulator.buyer_step 30 1000000000 1000000000
         (Simulator.initial_state 1000000000)
         ("Medium retail (2 SOL)"%string, 2) = Ok (line, st')
       /\ 0 < Simulator.bl_tokens_bought line
       /\ Simulator.bl_avg_price line
          = 2 / Simulator.bl_tokens_bought line
       /\ (30 + Simulator.total_sol (Simulator.initial_state 1000000000))
            / (1000000000
               + Simulator.remaining (Simulator.initial_state 1000000000))
          < Simulator.bl_avg_price line
       /\ Simulator.bl_avg_price line
          < (30 + Simulator.total_sol st')
              / (1000000000 + Simulator.remaining st').
Proof.
  split; [by_evaluation|]. split; [by_evaluation|]. split; [by_evaluation|].
  split; [apply Simulator.reach_init|]. split; [by_evaluation|].
  apply (buyer_step_average_price 30 1000000000 1000000000);
    [by_evaluation | by_evaluation | by_evaluation
    | apply Simulator.reach_init | by_evaluation].
Defined.

Lemma buyer_loop_totals_at_script :
  0 < 30 /\ 0 < 1000000000
  /\ Forall (fun b => 0 < snd b) Simulator.buyers
  /\ Simulator.reachable 30 1000000000 1000000000
       (Simulator.initial_state 1000000000)
  /\ exists lines st',
       Simulator.buyer_loop 30 1000000000 1000000000
         (Simulator.initial_state 1000000000) Simulator.buyers
         = Ok (lines, st')
       /\ map Simulator.bl_name lines = map fst Simulator.buyers
       /\ Simulator.total_sol st'
          == Simulator.total_sol (Simulator.initial_state 1000000000)
             + Qsum (map snd Simulator.buyers)
       /\ Simulator.remaining st'
          == Simulator.remaining (Simulator.initial_state 1000000000)
             - Qsum (map Simulator.bl_tokens_bought lines).
Proof.
  assert (Hbuyers : Forall (fun b => 0 < snd b) Simulator.buyers)
    by (repeat constructor).
  split; [by_evaluation|]. split; [by_evaluation|].
  split; [exact Hbuyers|].
  split; [apply Simulator.reach_init|].
  apply (buyer_loop_totals 30 1000000000 1000000000);
    [by_evaluation | by_evaluation | exact Hbuyers
    | apply Simulator.reach_init].
Defined.

Lemma buyer_step_splits_at_start :
  0 < 1000000000
  /\ 0 < 30 + Simulator.total_sol (Simulator.initial_state 1000000000)
  /\ 0 < 2 /\ 0 < 5
  /\ exists l1 s1 l2 s2 l12 s12,
       Simulator.buyer_step 30 1000000000 1000000000
         (Simulator.initial_state 1000000000) ("a"%string, 2) = Ok (l1, s1)
       /\ Simulator.buyer_step 30 1000000000 1000000000 s1 ("b"%string, 5)
          = Ok (l2, s2)
       /\ Simulator.buyer_step 30 1000000000 1000000000
            (Simulator.initial_state 1000000000) ("ab"%string, 2 + 5)
          = Ok (l12, s12)
       /\ Simulator.remaining s2 == Simulator.remaining s12
       /\ Simulator.total_sol s2 == Simulator.total_sol s12
       /\ Simulator.bl_tokens_bought l1 + Simulator.bl_tokens_bought l2
          == Simulator.bl_tokens_bought l12.
Proof.
  split; [by_evaluation|]. split; [by_evaluation|]. split; [by_evaluation|].
  split; [by_evaluation|].
  apply (buyer_step_splits 30 1000000000 1000000000); by_evaluation.
Defined.

(** ** More on the whale computation of [whale_attack_analysis] *)

Lemma Qlt_div_iff_l (a x c : Q) : 0 < c -> (a < x / c <-> a * c < x).
Proof.
  intros Hc. split; intros H.
  - assert (E : x == x / c * c) by (field; lra).
    rewrite E. now apply Qmult_lt_compat_r.
  - now apply Qlt_shift_div_l.
Qed.

Lemma Qlt_div_iff_r (a x c : Q) : 0 < c -> (x / c < a <-> x < a * c).
Proof.
  intros Hc. split; intros H.
  - assert (E : x == x / c * c) by (field; lra).
    rewrite E. now apply Qmult_lt_compat_r.
  - now apply Qlt_shift_div_r.
Qed.

Section WhaleMore.

Variables vsol vtok supply : Q.

Hypothesis vsol_pos : 0 < vsol.
Hypothesis vtok_pos : 0 < vtok.
Hypothesis supply_pos : 0 < supply.

(** The tokens and the percentage for a budget that keeps [new_sol]
    positive. *)
Lemma whale_purchase_value (budget : Q) :
  0 < vsol + budget ->
  Simulator.whale_purchase vsol vtok supply budget
  = Ok ((vtok + supply) - vsol * (vtok + supply) / (vsol + budget),
        ((vtok + supply) - vsol * (vtok + supply) / (vsol + budget))
          / supply * 100).
Proof using supply_pos.
  intros Hn. unfold Simulator.whale_purchase. cbv zeta.
  rewrite py_div_ok by lra. cbn [bind].
  rewrite py_div_ok by lra. reflexivity.
Qed.

(** X10. The whale computation does not stop at the supply either.
    Over the rationals, for positive parameters and a positive budget the
    percentage is positive, and it is above 100 exactly when the budget
    exceeds [vsol * supply / vtok], the cost of the whole supply. *)
Theorem whale_purchase_over_supply (budget : Q) :
  0 < budget ->
  exists tokens_bought pct,
    Simulator.whale_purchase vsol vtok supply budget = Ok (tokens_bought, pct)
    /\ pct == tokens_bought / supply * 100
    /\ 0 < pct
    /\ (100 < pct <-> vsol * supply / vtok < budget).
Proof using vsol_pos vtok_pos supply_pos.
  intros Hb.
  rewrite whale_purchase_value by lra.
  do 2 eexists. split; [reflexivity|]. split; [reflexivity|].
  assert (Hn : ~ vsol + budget == 0) by lra.
  rewrite (tokens_bought_fraction vsol (vtok + supply) budget Hn).
  assert (E : (vtok + supply) * budget / (vsol + budget) / supply * 100
              == 100 * ((vtok + supply) * budget)
                   / ((vsol + budget) * supply))
    by (field; split; lra).
  assert (Hden : 0 < (vsol + budget) * supply)
    by (apply Qmult_lt_0_compat; lra).
  rewrite E. split.
  - apply Qdiv_pos; [|exact Hden].
    repeat apply Qmult_lt_0_compat; lra.
  - rewrite (Qlt_div_iff_l _ _ _ Hden), (Qlt_div_iff_r _ _ _ vtok_pos).
    split; intros H; nra.
Qed.

(** X11. Over the rationals, a larger budget buys strictly more tokens
    and a strictly larger percentage of the supply. *)
Theorem whale_purchase_increasing (b1 b2 : Q) :
  0 < b1 -> b1 < b2 ->
  exists t1 p1 t2 p2,
    Simulator.whale_purchase vsol vtok supply b1 = Ok (t1, p1)
    /\ Simulator.whale_purchase vsol vtok supply b2 = Ok (t2, p2)
    /\ t1 < t2 /\ p1 < p2.
Proof using vsol_pos vtok_pos supply_pos.
  intros H1 H12.
  rewrite !whale_purchase_value by lra.
  do 4 eexists. split; [reflexivity|]. split; [reflexivity|].
  assert (Hk : 0 < vsol * (vtok + supply))
    by (apply Qmult_lt_0_compat; lra).
  assert (Hdiv : vsol * (vtok + supply) / (vsol + b2)
                 < vsol * (vtok + supply) / (vsol + b1))
    by (apply Qdiv_lt_divisor; lra).
  assert (Ht : (vtok + supply) - vsol * (vtok + supply) / (vsol + b1)
               < (vtok + supply) - vsol * (vtok + supply) / (vsol + b2))
    by lra.
  split; [exact Ht|].
  apply Qmult_lt_compat_r; [reflexivity|].
  apply Qdiv_lt_dividend; assumption.
Qed.

End WhaleMore.

Lemma whale_purchase_over_supply_at_preset :
  0 < 30 /\ 0 < 1000000000 /\ 0 < 1000000000 /\ 0 < 100
  /\ exists tokens_bought pct,
       Simulator.whale_purchase 30 1000000000 1000000000 100
         = Ok (tokens_bought, pct)
       /\ pct == tokens_bought / 1000000000 * 100
       /\ 0 < pct
       /\ (100 < pct <-> 30 * 1000000000 / 1000000000 < 100).
Proof.
  split; [by_evaluation|]. split; [by_evaluation|]. split; [by_evaluation|].
  split; [by_evaluation|].
  apply (whale_purchase_over_supply 30 1000000000 1000000000);
    by_evaluation.
Defined.

Lemma whale_purchase_increasing_at_preset :
  0 < 30 /\ 0 < 1000000000 /\ 0 < 1000000000 /\ 0 < 10 /\ 10 < 20
  /\ exists t1 p1 t2 p2,
       Simulator.whale_purchase 30 1000000000 1000000000 10 = Ok (t1, p1)
       /\ Simulator.whale_purchase 30 1000000000 1000000000 20 = Ok (t2, p2)
       /\ t1 < t2 /\ p1 < p2.
Proof.
  split; [by_evaluation|]. split; [by_evaluation|]. split; [by_evaluation|].
  split; [by_evaluation|]. split; [by_evaluation|].
  apply (whale_purchase_increasing 30 1000000000 1000000000);
    by_evaluation.
Defined.

(** ** [print_comparison_table] *)

Section ComparisonTable.

Variables (name : string) (vsol vtok supply : Q).

Hypothesis vsol_pos : 0 < vsol.
Hypothesis vtok_pos : 0 < vtok.
Hypothesis supply_pos : 0 < supply.

(** A row in closed form. *)
Lemma comparison_row_defined :
  let cost t := vsol * (vtok + supply) / (vtok + (supply - t)) - vsol in
  Simulator.comparison_row supply (name, vsol, vtok)
  = Ok (Simulator.mkComparisonRow name (vsol / vtok)
          (cost (supply * (10 # 100))) (cost (supply * (25 # 100)))
          (cost (supply * (50 # 100))) (cost (supply * (75 # 100)))
          (cost (supply * (90 # 100)))).
Proof using vtok_pos supply_pos.
  intros cost. unfold Simulator.comparison_row.
  rewrite py_div_ok by lra. cbn [bind].
  rewrite !calculate_buy_cost_defined by lra.
  reflexivity.
Qed.

(** X12. Over the rationals (the decimal fractions 0.10 ... 0.90 read
    exactly), for positive parameters a row of the comparison table is
    produced, and its five costs are positive, strictly increasing from
    10% to 90% of the supply, and below [vsol * supply / vtok], the cost
    of the whole supply. *)
Theorem comparison_row_costs :
  exists row,
    Simulator.comparison_row supply (name, vsol, vtok) = Ok row
    /\ 0 < Simulator.cr_sol_10 row
    /\ Simulator.cr_sol_10 row < Simulator.cr_sol_25 row
    /\ Simulator.cr_sol_25 row < Simulator.cr_sol_50 row
    /\ Simulator.cr_sol_50 row < Simulator.cr_sol_75 row
    /\ Simulator.cr_sol_75 row < Simulator.cr_sol_90 row
    /\ Simulator.cr_sol_90 row < vsol * supply / vtok.
Proof using vsol_pos vtok_pos supply_pos.
  rewrite comparison_row_defined.
  eexists. split; [reflexivity|].
  cbn [Simulator.cr_sol_10 Simulator.cr_sol_25 Simulator.cr_sol_50
       Simulator.cr_sol_75 Simulator.cr_sol_90].
  assert (Hpool : 0 < vtok + supply) by lra.
  split; [apply cost_formula_pos; lra|].
  repeat (split; [apply cost_formula_lt; lra|]).
  assert (Efull : vsol * supply / vtok
                  == vsol * (vtok + supply) / (vtok + (supply - supply))
                     - vsol) by (field; lra).
  rewrite Efull. apply cost_formula_lt; lra.
Qed.

(** X13. Over the rationals, the "Initial Price" of the table,
    [vsol / vtok], is not the price the curve starts at: it is strictly
    above the spot price [calculate_price_curve] computes at zero tokens
    sold, which is [vsol / (vtok + supply)]. *)
Theorem comparison_row_initial_price_above_spot :
  exists row pt,
    Simulator.comparison_row supply (name, vsol, vtok) = Ok row
    /\ Simulator.price_curve_point vsol vtok supply 0 = Ok pt
    /\ Simulator.cr_initial_price row = vsol / vtok
    /\ Simulator.cp_price pt == vsol / (vtok + supply)
    /\ Simulator.cp_price pt < Simulator.cr_initial_price row.
Proof using vsol_pos vtok_pos supply_pos.
  rewrite comparison_row_defined.
  rewrite price_curve_point_defined by lra.
  do 2 eexists. split; [reflexivity|]. split; [reflexivity|].
  cbn [Simulator.cr_initial_price Simulator.cp_price].
  split; [reflexivity|].
  assert (E : (vsol + (vsol * (vtok + supply) / (vtok + (supply - 0)) - vsol))
                / (vtok + (supply - 0))
              == vsol / (vtok + supply)) by (field; lra).
  split; [exact E|]. rewrite E. apply Qdiv_lt_divisor; lra.
Qed.

End ComparisonTable.

Lemma comparison_row_costs_at_preset :
  0 < 30 /\ 0 < 1000000000 /\ 0 < 1000000000
  /\ exists row,
       Simulator.comparison_row 1000000000
         ("Current (30/1B)"%string, 30, 1000000000) = Ok row
       /\ 0 < Simulator.cr_sol_10 row
       /\ Simulator.cr_sol_10 row < Simulator.cr_sol_25 row
       /\ Simulator.cr_sol_25 row < Simulator.cr_sol_50 row
       /\ Simulator.cr_sol_50 row < Simulator.cr_sol_75 row
       /\ Simulator.cr_sol_75 row < Simulator.cr_sol_90 row
       /\ Simulator.cr_sol_90 row < 30 * 1000000000 / 1000000000.
Proof.
  split; [by_evaluation|]. split; [by_evaluation|]. split; [by_evaluation|].
  apply (comparison_row_costs "Current (30/1B)"%string 30 1000000000
           1000000000); by_evaluation.
Defined.

Lemma comparison_row_initial_price_above_spot_at_preset :
  0 < 30 /\ 0 < 1000000000 /\ 0 < 1000000000
  /\ exists row pt,
       Simulator.comparison_row 1000000000
         ("Current (30/1B)"%string, 30, 1000000000) = Ok row
       /\ Simulator.price_curve_point 30 1000000000 1000000000 0 = Ok pt
       /\ Simulator.cr_initial_price row = 30 / 1000000000
       /\ Simulator.cp_price pt == 30 / (1000000000 + 1000000000)
       /\ Simulator.cp_price pt < Simulator.cr_initial_price row.
Proof.
  split; [by_evaluation|]. split; [by_evaluation|]. split; [by_evaluation|].
  apply (comparison_row_initial_price_above_spot "Current (30/1B)"%string 30
           1000000000 1000000000); by_evaluation.
Defined.

(** ** The cost series of [plot_comparison] *)

Section PlotCosts.

Variables vsol vtok supply : Q.

Hypothesis vsol_pos : 0 < vsol.
Hypothesis vtok_nonneg : 0 <= vtok.
Hypothesis supply_pos : 0 < supply.

(** The amount bought at step [i] of the series: [i * 0.95] percent of
    the supply. *)
Let amount (i : Z) : Q := supply * (inject_Z i * (95 # 100)) / 100.

Lemma amount_bounds (i : Z) :
  (0 <= i < 101)%Z -> 0 <= amount i /\ amount i <= supply * (95 # 100).
Proof using supply_pos.
  intros Hi. unfold amount.
  assert (H0 : 0 <= inject_Z i)
    by (change 0 with (inject_Z 0); rewrite <- Zle_Qle; lia).
  assert (H100 : inject_Z i <= 100)
    by (change 100 with (inject_Z 100); rewrite <- Zle_Qle; lia).
  assert (E : supply * (inject_Z i * (95 # 100)) / 100
              == supply * (95 # 10000) * inject_Z i) by field.
  rewrite E. split.
  - apply Qmult_le_0_compat; lra.
  - assert (E2 : supply * (95 # 100) == supply * (95 # 10000) * 100) by ring.
    rewrite E2. apply Qmult_le_l; lra.
Qed.

Lemma amount_lt (i j : Z) : (i < j)%Z -> amount i < amount j.
Proof using supply_pos.
  intros Hij. unfold amount.
  assert (H : inject_Z i < inject_Z j) by now rewrite <- Zlt_Qlt.
  assert (E : forall z, supply * (inject_Z z * (95 # 100)) / 100
                        == supply * (95 # 10000) * inject_Z z)
    by (intros z; field).
  rewrite !E. apply Qmult_lt_l; lra.
Qed.

Lemma plot_costs_defined :
  Simulator.plot_costs vsol vtok supply
  = Ok (map (fun i =>
               vsol * (vtok + supply) / (vtok + (supply - amount i)) - vsol)
            (Simulator.py_range 101)).
Proof using vtok_nonneg supply_pos.
  unfold Simulator.plot_costs, Simulator.plot_percentages.
  rewrite <- (map_map (fun i => inject_Z i * (95 # 100))
                (fun p => vsol * (vtok + supply)
                            / (vtok + (supply - supply * p / 100)) - vsol)).
  apply mapM_defined. intros p Hp.
  apply in_map_iff in Hp. destruct Hp as [i [<- Hi]].
  apply py_range_bounds in Hi.
  apply calculate_buy_cost_defined.
  pose proof (amount_bounds i Hi) as [_ Hle]. unfold amount in Hle. lra.
Qed.

(** X14. Over the rationals (0.95 read as the exact decimal), the cost
    series of the second chart never reaches the point where the division
    could fail: for a positive [vsol] and [supply] and any [vtok >= 0],
    all 101 costs (0% to 95% of the supply) are computed, the first is 0,
    and they are strictly increasing. *)
Theorem plot_costs_series :
  exists costs,
    Simulator.plot_costs vsol vtok supply = Ok costs
    /\ List.length costs = 101%nat
    /\ (exists c0, nth_error costs 0 = Some c0 /\ c0 == 0)
    /\ forall (i j : nat) (x y : Q),
         (i < j)%nat ->
         nth_error costs i = Some x -> nth_error costs j = Some y -> x < y.
Proof using vsol_pos vtok_nonneg supply_pos.
  rewrite plot_costs_defined.
  eexists. split; [reflexivity|].
  split; [now rewrite length_map, py_range_length|].
  split.
  - eexists. split; [reflexivity|]. unfold amount. cbn [inject_Z Z.of_nat].
    field. lra.
  - intros i j x y Hij Hx Hy.
    apply nth_map_range in Hx. apply nth_map_range in Hy.
    destruct Hx as [Hi ->]. destruct Hy as [Hj ->].
    assert (Hzj : (0 <= Z.of_nat j < 101)%Z) by lia.
    pose proof (amount_bounds _ Hzj) as [_ Hle].
    apply cost_formula_lt; [exact vsol_pos|lra| |lra].
    apply amount_lt. lia.
Qed.

End PlotCosts.

Lemma plot_costs_series_at_clamped_preset :
  0 < 200 /\ 0 <= 0 /\ 0 < 1000000000
  /\ exists costs,
       Simulator.plot_costs 200 0 1000000000 = Ok costs
       /\ List.length costs = 101%nat
       /\ (exists c0, nth_error costs 0 = Some c0 /\ c0 == 0)
       /\ forall (i j : nat) (x y : Q),
            (i < j)%nat ->
            nth_error costs i = Some x -> nth_error costs j = Some y -> x < y.
Proof.
  split; [by_evaluation|]. split; [by_evaluation|]. split; [by_evaluation|].
  apply (plot_costs_series 200 0 1000000000); by_evaluation.
Defined.

(** ** [calculate_virtual_tokens] on any input *)

Lemma Qdiv_neq0 (x y : Q) : ~ x == 0 -> ~ y == 0 -> ~ x / y == 0.
Proof.
  intros Hx Hy H. apply Hx.
  assert (E : x == x / y * y) by (field; exact Hy).
  rewrite E, H. ring.
Qed.

Lemma py_max_nonneg (x : Q) : 0 <= py_max 0 x.
Proof. rewrite py_max_spec. apply Q.le_max_l. Qed.

Lemma calculate_virtual_tokens_value (market_cap_sol virtual_sol supply : Q) :
  ~ market_cap_sol == 0 -> ~ supply == 0 ->
  Analyzer.calculate_virtual_tokens market_cap_sol virtual_sol supply
  = Ok (py_max 0 (virtual_sol / (market_cap_sol / supply) - supply)).
Proof.
  intros Hm Hs. unfold Analyzer.calculate_virtual_tokens.
  rewrite (py_div_ok _ _ Hs). cbn [bind].
  rewrite (py_div_ok _ _ (Qdiv_neq0 _ _ Hm Hs)). reflexivity.
Qed.

Lemma calculate_virtual_tokens_zero_cap (market_cap_sol virtual_sol supply : Q) :
  market_cap_sol == 0 -> ~ supply == 0 ->
  Analyzer.calculate_virtual_tokens market_cap_sol virtual_sol supply
  = Raise ZeroDivisionError.
Proof.
  intros Hm Hs. unfold Analyzer.calculate_virtual_tokens.
  rewrite (py_div_ok _ _ Hs). cbn [bind].
  rewrite py_div_raise; [reflexivity|].
  rewrite Hm. field. exact Hs.
Qed.

(** The three ways through [calculate_virtual_tokens], by its two
    divisors as computed. *)
Lemma calculate_virtual_tokens_cases (market_cap_sol virtual_sol supply : Q) :
  (supply == 0 ->
   Analyzer.calculate_virtual_tokens market_cap_sol virtual_sol supply
   = Raise ZeroDivisionError)
  /\ (~ supply == 0 -> market_cap_sol / supply == 0 ->
      Analyzer.calculate_virtual_tokens market_cap_sol virtual_sol supply
      = Raise ZeroDivisionError)
  /\ (~ supply == 0 -> ~ market_cap_sol / supply == 0 ->
      Analyzer.calculate_virtual_tokens market_cap_sol virtual_sol supply
      = Ok (py_max 0 (virtual_sol / (market_cap_sol / supply) - supply))).
Proof.
  unfold Analyzer.calculate_virtual_tokens. repeat split.
  - intros Hs. now rewrite (py_div_raise _ _ Hs).
  - intros Hs Hq. rewrite (py_div_ok _ _ Hs). cbn [bind].
    now rewrite (py_div_raise _ _ Hq).
  - intros Hs Hq. rewrite (py_div_ok _ _ Hs). cbn [bind].
    now rewrite (py_div_ok _ _ Hq).
Qed.

(** X15. [calculate_virtual_tokens] raises [ZeroDivisionError] exactly
    when one of its two divisors is zero: the supply, or the quotient
    [market_cap_sol / total_supply] it has just computed.  On every other
    input, negative ones included, it returns the clamp of
    [virtual_sol / (market_cap_sol / total_supply) - total_supply], a
    number that is not negative. *)
Theorem calculate_virtual_tokens_raises_iff
    (market_cap_sol virtual_sol supply : Q) :
  (Analyzer.calculate_virtual_tokens market_cap_sol virtual_sol supply
     = Raise ZeroDivisionError
   <-> supply == 0 \/ market_cap_sol / supply == 0)
  /\ (forall v,
        Analyzer.calculate_virtual_tokens market_cap_sol virtual_sol supply
          = Ok v ->
        v = py_max 0 (virtual_sol / (market_cap_sol / supply) - supply)
        /\ 0 <= v).
Proof.
  destruct (calculate_virtual_tokens_cases market_cap_sol virtual_sol supply)
    as [Hzero [Hquot Hok]].
  destruct (Qeq_dec supply 0) as [Hs|Hs].
  - rewrite (Hzero Hs). split; [tauto|discriminate].
  - destruct (Qeq_dec (market_cap_sol / supply) 0) as [Hq|Hq].
    + rewrite (Hquot Hs Hq). split; [tauto|discriminate].
    + rewrite (Hok Hs Hq). split.
      * split; [discriminate|tauto].
      * intros v H. injection H as <-. split; [reflexivity|].
        apply py_max_nonneg.
Qed.

(** ** [analyze_market_cap] *)

Section AnalyzeMarketCap.

Variables market_cap_usd sol_price_usd virtual_sol : Q.

(** The virtual tokens and a cost of the configuration, as the function
    computes them. *)
Let vt : Q :=
  py_max 0
    (virtual_sol / (market_cap_usd / sol_price_usd / 1000000000) - 1000000000).

Let cost (t : Q) : Q :=
  virtual_sol * (vt + 1000000000) / (vt + (1000000000 - t)) - virtual_sol.

(** The configuration in closed form, when neither the market cap nor
    the SOL price is zero. *)
Lemma analyze_market_cap_defined :
  ~ market_cap_usd == 0 -> ~ sol_price_usd == 0 ->
  Analyzer.analyze_market_cap market_cap_usd sol_price_usd virtual_sol
  = Ok (Analyzer.mkConfig market_cap_usd (market_cap_usd / sol_price_usd)
          virtual_sol vt (market_cap_usd / sol_price_usd / 1000000000)
          [ ("10%"%string, cost (1000000000 * (10 # 100)));
            ("25%"%string, cost (1000000000 * (25 # 100)));
            ("50%"%string, cost (1000000000 * (50 # 100)));
            ("75%"%string, cost (1000000000 * (75 # 100)));
            ("90%"%string, cost (1000000000 * (90 # 100))) ]).
Proof.
  intros Hm Hp. unfold Analyzer.analyze_market_cap. cbv zeta.
  rewrite (py_div_ok _ _ Hp). cbn [bind].
  rewrite calculate_virtual_tokens_value
    by (try apply Qdiv_neq0; try assumption; discriminate).
  cbn [bind]. fold vt.
  rewrite py_div_ok by discriminate. cbn [bind].
  change Analyzer.calculate_buy_cost with Simulator.calculate_buy_cost.
  pose proof (py_max_nonneg
                (virtual_sol / (market_cap_usd / sol_price_usd / 1000000000)
                 - 1000000000)) as Hvt.
  fold vt in Hvt.
  rewrite !calculate_buy_cost_defined by lra.
  reflexivity.
Qed.

(** X16. [analyze_market_cap] raises [ZeroDivisionError] exactly when
    the SOL price is zero or the initial price it computes,
    [market_cap_usd / sol_price_usd / 1e9], is zero: the clamp keeps the
    virtual tokens at zero or above, so none of the five cost
    computations (up to 90% of the supply) divides by zero. *)
Theorem analyze_market_cap_raises_iff :
  Analyzer.analyze_market_cap market_cap_usd sol_price_usd virtual_sol
    = Raise ZeroDivisionError
  <-> sol_price_usd == 0
      \/ market_cap_usd / sol_price_usd / 1000000000 == 0.
Proof.
  destruct (Qeq_dec sol_price_usd 0) as [Hp|Hp].
  - assert (Hraise :
      Analyzer.analyze_market_cap market_cap_usd sol_price_usd virtual_sol
      = Raise ZeroDivisionError).
    { unfold Analyzer.analyze_market_cap.
      now rewrite (py_div_raise _ _ Hp). }
    rewrite Hraise. tauto.
  - destruct (Qeq_dec (market_cap_usd / sol_price_usd / 1000000000) 0)
      as [Hq|Hq].
    + assert (Hraise :
        Analyzer.analyze_market_cap market_cap_usd sol_price_usd virtual_sol
        = Raise ZeroDivisionError).
      { unfold Analyzer.analyze_market_cap. cbv zeta.
        rewrite (py_div_ok _ _ Hp). cbn [bind].
        destruct (calculate_virtual_tokens_cases
                    (market_cap_usd / sol_price_usd) virtual_sol 1000000000)
          as [_ [Hquot _]].
        rewrite Hquot; [reflexivity|discriminate|exact Hq]. }
      rewrite Hraise. tauto.
    + assert (Hm : ~ market_cap_usd == 0).
      { intros E. apply Hq. rewrite E. field. exact Hp. }
      rewrite (analyze_market_cap_defined Hm Hp).
      split; [discriminate|tauto].
Qed.

End AnalyzeMarketCap.

(** ** Configurations for positive inputs *)

Lemma Qdiv_le_divisor (x d1 d2 : Q) :
  0 <= x -> 0 < d1 -> d1 <= d2 -> x / d2 <= x / d1.
Proof.
  intros Hx H1 H12.
  assert (H2 : 0 < d2) by lra.
  assert (Hq : 0 <= x / d2) by (apply Qle_shift_div_l; lra).
  apply Qle_shift_div_l; [exact H1|].
  assert (E : x == x / d2 * d2) by (field; lra).
  rewrite E at 2. rewrite !(Qmult_comm (x / d2)).
  apply Qmult_le_compat_r; assumption.
Qed.

(** The clamp, seen from the token side of the pool. *)
Lemma clamp_plus_supply (r : Q) :
  py_max 0 (1000000000 * r - 1000000000) + 1000000000
  == 1000000000 * Qmax 1 r.
Proof.
  rewrite py_max_spec.
  destruct (Q.max_spec 0 (1000000000 * r - 1000000000)) as [[H1 E1]|[H1 E1]];
    destruct (Q.max_spec 1 r) as [[H2 E2]|[H2 E2]];
    rewrite E1, E2; lra.
Qed.

Section PositiveConfig.

Variables market_cap_usd sol_price_usd virtual_sol : Q.

Hypothesis market_cap_pos : 0 < market_cap_usd.
Hypothesis sol_price_pos : 0 < sol_price_usd.
Hypothesis virtual_sol_pos : 0 < virtual_sol.

Let vt : Q :=
  py_max 0
    (virtual_sol / (market_cap_usd / sol_price_usd / 1000000000) - 1000000000).

Lemma config_raw_tokens :
  virtual_sol / (market_cap_usd / sol_price_usd / 1000000000) - 1000000000
  == 1000000000 * (virtual_sol * sol_price_usd / market_cap_usd) - 1000000000.
Proof using market_cap_pos sol_price_pos. field. split; lra. Qed.

Lemma config_vt_nonneg : 0 <= vt.
Proof. apply py_max_nonneg. Qed.

(** The token side of the configured pool: the supply, scaled up when the
    market cap in SOL is below [virtual_sol]. *)
Lemma config_pool :
  vt + 1000000000
  == 1000000000 * Qmax 1 (virtual_sol * sol_price_usd / market_cap_usd).
Proof using market_cap_pos sol_price_pos.
  rewrite <- clamp_plus_supply. unfold vt.
  rewrite !py_max_spec. now rewrite config_raw_tokens.
Qed.

(** X17. Over the rationals, for a positive market cap, SOL price and
    [virtual_sol], [analyze_market_cap] returns a configuration whose
    virtual tokens are
    [max(0, virtual_sol * 1e9 * sol_price / market_cap - 1e9)] and whose
    cost table has the keys 10%, 25%, 50%, 75%, 90% in this order, with
    positive and strictly increasing costs. *)
Theorem analyze_market_cap_costs :
  exists config,
    Analyzer.analyze_market_cap market_cap_usd sol_price_usd virtual_sol
      = Ok config
    /\ Analyzer.virtual_tokens config
       == Qmax 0 (virtual_sol * 1000000000 * sol_price_usd / market_cap_usd
                  - 1000000000)
    /\ map fst (Analyzer.costs config)
       = ["10%"; "25%"; "50%"; "75%"; "90%"]%string
    /\ exists c10 c25 c50 c75 c90,
         map snd (Analyzer.costs config) = [c10; c25; c50; c75; c90]
         /\ 0 < c10 /\ c10 < c25 /\ c25 < c50 /\ c50 < c75 /\ c75 < c90.
Proof using market_cap_pos sol_price_pos virtual_sol_pos.
  rewrite analyze_market_cap_defined by lra. fold vt.
  eexists. split; [reflexivity|].
  cbn [Analyzer.virtual_tokens Analyzer.costs map fst snd].
  split.
  - unfold vt. rewrite py_max_spec, config_raw_tokens.
    assert (E : 1000000000 * (virtual_sol * sol_price_usd / market_cap_usd)
                  - 1000000000
                == virtual_sol * 1000000000 * sol_price_usd / market_cap_usd
                   - 1000000000) by (field; lra).
    now rewrite E.
  - split; [reflexivity|].
    do 5 eexists. split; [reflexivity|].
    pose proof config_vt_nonneg as Hvt.
    assert (Hpool : 0 < vt + 1000000000) by lra.
    split; [apply cost_formula_pos; lra|].
    repeat split; apply cost_formula_lt; lra.
Qed.

(** X18. Over the rationals, the market cap the configured curve starts
    at, its spot price at zero tokens sold times the supply times the SOL
    price, is the requested market cap only up to
    [virtual_sol * sol_price_usd]: it is the smaller of the two. *)
Theorem analyze_market_cap_effective_market_cap :
  exists config pt,
    Analyzer.analyze_market_cap market_cap_usd sol_price_usd virtual_sol
      = Ok config
    /\ Simulator.price_curve_point (Analyzer.virtual_sol config)
         (Analyzer.virtual_tokens config) 1000000000 0 = Ok pt
    /\ Simulator.cp_price pt * 1000000000 * sol_price_usd
       == Qmin market_cap_usd (virtual_sol * sol_price_usd).
Proof using market_cap_pos sol_price_pos virtual_sol_pos.
  rewrite analyze_market_cap_defined by lra. fold vt.
  cbn [Analyzer.virtual_sol Analyzer.virtual_tokens].
  pose proof config_vt_nonneg as Hvt.
  assert (Hpool : 0 < vt + 1000000000) by lra.
  destruct (spot_price_at_zero virtual_sol 1000000000 vt Hpool)
    as [pt [Hpt Eprice]].
  do 2 eexists. split; [reflexivity|]. split; [exact Hpt|].
  rewrite Eprice, config_pool.
  set (r := virtual_sol * sol_price_usd / market_cap_usd).
  assert (Er : virtual_sol * sol_price_usd == r * market_cap_usd)
    by (unfold r; field; lra).
  assert (Hr : 0 < r)
    by (apply Qdiv_pos; [apply Qmult_lt_0_compat|]; assumption).
  destruct (Q.max_spec 1 r) as [[H1 E1]|[H1 E1]]; rewrite E1.
  - rewrite Q.min_l by (rewrite Er; nra).
    unfold r. field. repeat split; lra.
  - rewrite Q.min_r by (rewrite Er; nra).
    field.
Qed.

End PositiveConfig.

(** X19. With the same [virtual_sol], a configuration for a larger market
    cap in SOL (larger USD market cap, or lower SOL price) never has more
    virtual tokens.  The inputs are positive and such that the initial
    price [usd / price / 1e9] of each configuration is not zero, which is
    when [analyze_market_cap] returns. *)
Theorem analyze_market_cap_tokens_monotone
    (usd1 price1 usd2 price2 virtual_sol : Q) :
  0 < usd1 -> 0 < price1 -> 0 < usd2 -> 0 < price2 -> 0 < virtual_sol ->
  ~ usd1 / price1 / 1000000000 == 0 ->
  ~ usd2 / price2 / 1000000000 == 0 ->
  usd1 / price1 <= usd2 / price2 ->
  exists config1 config2,
    Analyzer.analyze_market_cap usd1 price1 virtual_sol = Ok config1
    /\ Analyzer.analyze_market_cap usd2 price2 virtual_sol = Ok config2
    /\ Analyzer.virtual_tokens config2 <= Analyzer.virtual_tokens config1.
Proof.
  intros Hu1 Hp1 Hu2 Hp2 Hvs _ _ Hle.
  rewrite !analyze_market_cap_defined by lra.
  do 2 eexists. split; [reflexivity|]. split; [reflexivity|].
  cbn [Analyzer.virtual_tokens]. rewrite !py_max_spec.
  apply Q.max_le_compat_l.
  assert (Hm1 : 0 < usd1 / price1) by now apply Qdiv_pos.
  assert (Hd : virtual_sol / (usd2 / price2 / 1000000000)
               <= virtual_sol / (usd1 / price1 / 1000000000)).
  { apply Qdiv_le_divisor; [lra| |].
    - apply Qdiv_pos; [exact Hm1|reflexivity].
    - unfold Qdiv at 1 3. apply Qmult_le_compat_r; [exact Hle|discriminate]. }
  lra.
Qed.

Lemma analyze_market_cap_tokens_monotone_at_sol_prices :
  0 < 25000 /\ 0 < 300 /\ 0 < 25000 /\ 0 < 100 /\ 0 < 200
  /\ ~ 25000 / 300 / 1000000000 == 0
  /\ ~ 25000 / 100 / 1000000000 == 0
  /\ 25000 / 300 <= 25000 / 100
  /\ exists config1 config2,
       Analyzer.analyze_market_cap 25000 300 200 = Ok config1
       /\ Analyzer.analyze_market_cap 25000 100 200 = Ok config2
       /\ Analyzer.virtual_tokens config2 <= Analyzer.virtual_tokens config1.
Proof.
  split; [by_evaluation|]. split; [by_evaluation|]. split; [by_evaluation|].
  split; [by_evaluation|]. split; [by_evaluation|]. split; [by_evaluation|].
  split; [by_evaluation|]. split; [by_evaluation|].
  apply (analyze_market_cap_tokens_monotone 25000 300 25000 100 200);
    by_evaluation.
Defined.

(** ** The markers of [print_market_cap_comparison] *)

Ltac Qle_bool_facts :=
  repeat match goal with
  | H : Qle_bool _ _ = true |- _ => apply Qle_bool_iff in H
  | H : Qle_bool ?a ?b = false |- _ =>
      assert (b < a)
        by (apply Qnot_le_lt; intros X; apply Qle_bool_iff in X; congruence);
      clear H
  end.

(** A higher cost never gets a marker from earlier in the chain. *)
Lemma cost_marker_monotone (c1 c2 : Q) :
  c1 <= c2 ->
  (Analyzer.marker_rank (Analyzer.cost_marker c1)
   <= Analyzer.marker_rank (Analyzer.cost_marker c2))%nat.
Proof.
  intros Hle. unfold Analyzer.cost_marker.
  destruct (Qle_bool 10 c1) eqn:A1; destruct (Qle_bool 50 c1) eqn:B1;
    destruct (Qle_bool 100 c1) eqn:C1; destruct (Qle_bool 10 c2) eqn:A2;
    destruct (Qle_bool 50 c2) eqn:B2; destruct (Qle_bool 100 c2) eqn:C2;
    cbn; try lia; Qle_bool_facts; lra.
Qed.

(** X20. For positive inputs whose initial price
    [market_cap_usd / sol_price_usd / 1e9] is not zero (which is when
    [analyze_market_cap] returns), the cost lines printed for a preset
    carry markers in non-decreasing order of expense, from the 10% line
    down to the 90% line. *)
Theorem cost_lines_markers_sorted (market_cap_usd sol_price_usd virtual_sol : Q) :
  0 < market_cap_usd -> 0 < sol_price_usd -> 0 < virtual_sol ->
  ~ market_cap_usd / sol_price_usd / 1000000000 == 0 ->
  exists config,
    Analyzer.analyze_market_cap market_cap_usd sol_price_usd virtual_sol
      = Ok config
    /\ map (fun l => snd (fst l)) (Analyzer.cost_lines config)
       = ["10%"; "25%"; "50%"; "75%"; "90%"]%string
    /\ Sorted le
         (map (fun l => Analyzer.marker_rank (fst (fst l)))
              (Analyzer.cost_lines config)).
Proof.
  intros Hu Hp Hvs _.
  rewrite analyze_market_cap_defined by lra.
  eexists. split; [reflexivity|]. split; [reflexivity|].
  unfold Analyzer.cost_lines. cbn [Analyzer.costs map fst snd].
  pose proof (py_max_nonneg
                (virtual_sol / (market_cap_usd / sol_price_usd / 1000000000)
                 - 1000000000)) as Hvt.
  repeat (apply Sorted_cons;
          [|first [apply HdRel_nil
                  | apply HdRel_cons, cost_marker_monotone, Qlt_le_weak,
                      cost_formula_lt; lra]]).
  apply Sorted_nil.
Qed.

Lemma cost_lines_markers_sorted_at_preset :
  0 < 25000 /\ 0 < 200 /\ 0 < 200
  /\ ~ 25000 / 200 / 1000000000 == 0
  /\ exists config,
       Analyzer.analyze_market_cap 25000 200 200 = Ok config
       /\ map (fun l => snd (fst l)) (Analyzer.cost_lines config)
          = ["10%"; "25%"; "50%"; "75%"; "90%"]%string
       /\ Sorted le
            (map (fun l => Analyzer.marker_rank (fst (fst l)))
                 (Analyzer.cost_lines config)).
Proof.
  split; [by_evaluation|]. split; [by_evaluation|]. split; [by_evaluation|].
  split; [by_evaluation|].
  apply (cost_lines_markers_sorted 25000 200 200); by_evaluation.
Defined.

(** ** [whale_resistance_analysis] *)

(** A cell of the table in closed form. *)
Lemma whale_resistance_cell_closed (budget market_cap : Q) :
  0 < budget -> 0 < market_cap ->
  exists pct,
    Analyzer.whale_resistance_cell budget market_cap = Ok pct
    /\ pct == 100 * budget / (200 + budget) * Qmax 1 (40000 / market_cap).
Proof.
  intros Hb Hm. unfold Analyzer.whale_resistance_cell.
  unfold Analyzer.default_sol_price_usd, Analyzer.default_virtual_sol.
  rewrite analyze_market_cap_defined by lra.
  cbn [bind Analyzer.virtual_sol Analyzer.virtual_tokens]. cbv zeta.
  rewrite py_div_ok by lra. cbn [bind].
  rewrite py_div_ok by discriminate. cbn [bind].
  eexists. split; [reflexivity|].
  rewrite tokens_bought_fraction by lra.
  rewrite (config_pool market_cap 200 200 Hm) by reflexivity.
  assert (E : 200 * 200 / market_cap == 40000 / market_cap) by (field; lra).
  rewrite E. field. lra.
Qed.

(** X21. Over the rationals, for a positive budget and market cap, a
    cell of the whale table is
    [100 * budget / (200 + budget) * max(1, 40000 / market_cap)]
    percent. So a larger market cap never shows a larger percentage, and
    from 40,000 USD on (the clamp) the percentage no longer depends on
    the market cap. *)
Theorem whale_resistance_cell_by_market_cap (budget cap1 cap2 : Q) :
  0 < budget -> 0 < cap1 -> cap1 <= cap2 ->
  exists pct1 pct2,
    Analyzer.whale_resistance_cell budget cap1 = Ok pct1
    /\ Analyzer.whale_resistance_cell budget cap2 = Ok pct2
    /\ pct1 == 100 * budget / (200 + budget) * Qmax 1 (40000 / cap1)
    /\ pct2 == 100 * budget / (200 + budget) * Qmax 1 (40000 / cap2)
    /\ pct2 <= pct1
    /\ (40000 <= cap1 -> pct1 == pct2).
Proof.
  intros Hb H1 H12.
  assert (H2 : 0 < cap2) by lra.
  destruct (whale_resistance_cell_closed budget cap1 Hb H1) as [p1 [Hc1 E1]].
  destruct (whale_resistance_cell_closed budget cap2 Hb H2) as [p2 [Hc2 E2]].
  exists p1, p2. repeat (split; [assumption|]).
  assert (Hf : 0 < 100 * budget / (200 + budget))
    by (apply Qdiv_pos; lra).
  split.
  - rewrite E1, E2. apply Qmult_le_l; [exact Hf|].
    apply Q.max_le_compat_l. apply Qdiv_le_divisor; lra.
  - intros Hsat. rewrite E1, E2.
    assert (Hq1 : 40000 / cap1 <= 1) by (apply Qle_shift_div_r; lra).
    assert (Hq2 : 40000 / cap2 <= 1) by (apply Qle_shift_div_r; lra).
    now rewrite !Q.max_l.
Qed.

Lemma whale_resistance_cell_by_market_cap_at_presets :
  0 < 100 /\ 0 < 50000 /\ 50000 <= 100000
  /\ exists pct1 pct2,
       Analyzer.whale_resistance_cell 100 50000 = Ok pct1
       /\ Analyzer.whale_resistance_cell 100 100000 = Ok pct2
       /\ pct1 == 100 * 100 / (200 + 100) * Qmax 1 (40000 / 50000)
       /\ pct2 == 100 * 100 / (200 + 100) * Qmax 1 (40000 / 100000)
       /\ pct2 <= pct1
       /\ (40000 <= 50000 -> pct1 == pct2).
Proof.
  split; [by_evaluation|]. split; [by_evaluation|]. split; [by_evaluation|].
  apply (whale_resistance_cell_by_market_cap 100 50000 100000);
    by_evaluation.
Defined.

(** The "Large Launch" preset, past the clamp. *)
Lemma analyze_market_cap_costs_at_preset :
  0 < 50000 /\ 0 < 200 /\ 0 < 200
  /\ exists config,
       Analyzer.analyze_market_cap 50000 200 200 = Ok config
       /\ Analyzer.virtual_tokens config
          == Qmax 0 (200 * 1000000000 * 200 / 50000 - 1000000000)
       /\ map fst (Analyzer.costs config)
          = ["10%"; "25%"; "50%"; "75%"; "90%"]%string
       /\ exists c10 c25 c50 c75 c90,
            map snd (Analyzer.costs config) = [c10; c25; c50; c75; c90]
            /\ 0 < c10 /\ c10 < c25 /\ c25 < c50 /\ c50 < c75 /\ c75 < c90.
Proof.
  split; [by_evaluation|]. split; [by_evaluation|]. split; [by_evaluation|].
  apply (analyze_market_cap_costs 50000 200 200); by_evaluation.
Defined.

Lemma analyze_market_cap_effective_market_cap_at_preset :
  0 < 50000 /\ 0 < 200 /\ 0 < 200
  /\ exists config pt,
       Analyzer.analyze_market_cap 50000 200 200 = Ok config
       /\ Simulator.price_curve_point (Analyzer.virtual_sol config)
            (Analyzer.virtual_tokens config) 1000000000 0 = Ok pt
       /\ Simulator.cp_price pt * 1000000000 * 200
          == Qmin 50000 (200 * 200).
Proof.
  split; [by_evaluation|]. split; [by_evaluation|]. split; [by_evaluation|].
  apply (analyze_market_cap_effective_market_cap 50000 200 200);
    by_evaluation.
Defined.

(** ** The tables of the two scripts, run as written *)

Example print_comparison_table_runs :
  exists rows,
    Simulator.print_comparison_table = Ok rows /\ List.length rows = 4%nat.
Proof. eexists. split; [vm_compute; reflexivity|reflexivity]. Qed.

Example print_market_cap_comparison_runs :
  exists entries,
    Analyzer.print_market_cap_comparison = Ok entries
    /\ List.length entries = 5%nat.
Proof. eexists. split; [vm_compute; reflexivity|reflexivity]. Qed.

Example whale_resistance_analysis_runs :
  exists table,
    Analyzer.whale_resistance_analysis = Ok table
    /\ map (@List.length Q) table = [5; 5; 5; 5; 5]%nat.
Proof. eexists. split; [vm_compute; reflexivity|reflexivity]. Qed.

Example sol_price_sensitivity_runs :
  exists configs,
    Analyzer.sol_price_sensitivity = Ok configs
    /\ List.length configs = 5%nat.
Proof. eexists. split; [vm_compute; reflexivity|reflexivity]. Qed.

(** The 100 SOL whale of [whale_attack_analysis]: 2000/13 (about 153.8)
    percent of the supply with the current parameters, 160/3 (about 53.3)
    percent with the optimized ones. *)
Example whale_purchase_100_sol :
  (exists t p, Simulator.whale_purchase 30 1000000000 1000000000 100
               = Ok (t, p) /\ p == 2000 # 13)
  /\ (exists t p, Simulator.whale_purchase 200 600000000 1000000000 100
                  = Ok (t, p) /\ p == 160 # 3).
Proof.
  split; do 2 eexists; (split; [vm_compute; reflexivity|]);
    vm_compute; reflexivity.
Qed.

(** A negative market cap: nothing raises, and the clamp returns 0. *)
Lemma calculate_virtual_tokens_raises_iff_at_negative_cap :
  (Analyzer.calculate_virtual_tokens (-125) 200 1000000000
     = Raise ZeroDivisionError
   <-> 1000000000 == 0 \/ -125 / 1000000000 == 0)
  /\ (forall v,
        Analyzer.calculate_virtual_tokens (-125) 200 1000000000 = Ok v ->
        v = py_max 0 (200 / (-125 / 1000000000) - 1000000000)
        /\ 0 <= v).
Proof.
  apply (calculate_virtual_tokens_raises_iff (-125) 200 1000000000).
Defined.

(** ** The price curve of the first preset, two points *)

Lemma two_point_divisors (i : Z) :
  (0 <= i < 2)%Z ->
  ~ 1000000000
    + (1000000000 - 1000000000 / inject_Z 2 * inject_Z (i + 1)) == 0.
Proof.
  intros Hi.
  assert (Hcases : i = 0%Z \/ i = 1%Z) by lia.
  destruct Hcases as [->| ->]; vm_compute; discriminate.
Defined.

Lemma spot_price_formula_at_preset :
  0 < 30 /\ 0 < 1000000000 /\ 0 < 1000000000
  /\ 0 <= 500000000 /\ 500000000 < 1000000000
  /\ (exists pt solSpent,
        Simulator.price_curve_point 30 1000000000 1000000000 500000000
          = Ok pt
        /\ Simulator.calculate_buy_cost 30 1000000000 1000000000 500000000
           = Ok solSpent
        /\ Simulator.cp_sol_spent pt = solSpent
        /\ Simulator.cp_price pt
           == (30 + solSpent) / (1000000000 + (1000000000 - 500000000)))
  /\ (exists tokens_bought prices sol_spent,
        Simulator.calculate_price_curve 30 1000000000 1000000000 2
          = Ok (tokens_bought, prices, sol_spent)
        /\ List.length prices = Z.to_nat 2
        /\ forall i, (i < Z.to_nat 2)%nat ->
             let tokensSold :=
               1000000000 / inject_Z 2 * inject_Z (Z.of_nat i + 1) in
             exists solSpent,
               Simulator.calculate_buy_cost 30 1000000000 1000000000
                 tokensSold = Ok solSpent
               /\ nth_error sol_spent i = Some solSpent
               /\ nth_error prices i
                  = Some ((30 + solSpent)
                            / (1000000000 + (1000000000 - tokensSold)))).
Proof.
  assert (H30 : 0 < 30) by by_evaluation.
  assert (Hs : 0 < 1000000000) by by_evaluation.
  assert (H0 : 0 <= 500000000) by by_evaluation.
  assert (Hlt : 500000000 < 1000000000) by by_evaluation.
  destruct (spot_price_formula 30 1000000000 1000000000 H30 Hs Hs)
    as [Hbody [Hlists Hreturns]].
  repeat (split; [assumption|]).
  split; [exact (Hbody 500000000 H0 Hlt)|].
  destruct (Hreturns 2%Z eq_refl two_point_divisors) as [tb [pr [ss Hok]]].
  exists tb, pr, ss. split; [exact Hok|].
  exact (Hlists 2%Z tb pr ss Hok).
Defined.

Lemma calculate_price_curve_costs_at_preset :
  exists tb pr ss,
    Simulator.calculate_price_curve 30 1000000000 1000000000 2
      = Ok (tb, pr, ss)
    /\ List.length tb = Z.to_nat 2
    /\ List.length pr = Z.to_nat 2
    /\ List.length ss = Z.to_nat 2
    /\ forall i, (i < Z.to_nat 2)%nat ->
         let t := 1000000000 / inject_Z 2 * inject_Z (Z.of_nat i + 1) in
         nth_error tb i = Some (t / 1000000)
         /\ exists c,
              nth_error ss i = Some c
              /\ Simulator.calculate_buy_cost 30 1000000000 1000000000 t
                 = Ok c.
Proof.
  destruct (calculate_price_curve_costs 30 1000000000 1000000000 2)
    as [Hiff Hentries].
  destruct (proj2 Hiff) as [[[tb pr] ss] Hok].
  - split; [discriminate|exact two_point_divisors].
  - exists tb, pr, ss. split; [exact Hok|]. exact (Hentries tb pr ss Hok).
Defined.

(** * What binary64 changes

    The statements above that are worded over the rationals hold of the
    formulas of the scripts in exact arithmetic.  The facts below are
    about the binary64 embedding, which follows the code rounding for
    rounding. *)

Section Binary64Facts.

#[local] Set Warnings "-inexact-float".
Local Open Scope float_scope.

(** Where the division raises is decided by the divisor as computed. *)
Lemma binary64_calculate_buy_cost_raises_iff
    (virtual_sol virtual_tokens supply tokensToBuy : float) :
  Binary64.calculate_buy_cost virtual_sol virtual_tokens supply tokensToBuy
    = Raise ZeroDivisionError
  <-> (virtual_tokens + (supply - tokensToBuy) =? 0) = true.
Proof.
  unfold Binary64.calculate_buy_cost, Binary64.py_div. cbv zeta.
  destruct (virtual_tokens + (supply - tokensToBuy) =? 0); cbn [bind];
    split; intros H; try reflexivity; discriminate H.
Qed.

(** When it returns, it returns the source expression. *)
Lemma binary64_calculate_buy_cost_value
    (virtual_sol virtual_tokens supply tokensToBuy cost : float) :
  Binary64.calculate_buy_cost virtual_sol virtual_tokens supply tokensToBuy
    = Ok cost ->
  cost = virtual_sol * (virtual_tokens + supply)
           / (virtual_tokens + (supply - tokensToBuy)) - virtual_sol.
Proof.
  unfold Binary64.calculate_buy_cost, Binary64.py_div. cbv zeta.
  destruct (virtual_tokens + (supply - tokensToBuy) =? 0); cbn [bind];
    intros H; [discriminate H|]. now injection H as <-.
Qed.

Lemma binary64_calculate_virtual_tokens_raises_iff
    (market_cap_sol virtual_sol supply : float) :
  Binary64.calculate_virtual_tokens market_cap_sol virtual_sol supply
    = Raise ZeroDivisionError
  <-> (supply =? 0) = true \/ (market_cap_sol / supply =? 0) = true.
Proof.
  unfold Binary64.calculate_virtual_tokens, Binary64.py_div.
  destruct (supply =? 0); cbn [bind]; [tauto|].
  destruct (market_cap_sol / supply =? 0); cbn [bind]; [tauto|].
  split; [discriminate|]. intros [H|H]; discriminate H.
Qed.

(** The divisor can be zero away from [tokensToBuy = virtual_tokens +
    supply]: here [supply - tokensToBuy] rounds to [- virtual_tokens]. *)
Example binary64_raises_by_rounding :
  Binary64.calculate_buy_cost 30 1e16 3 (1e16 + 2) = Raise ZeroDivisionError
  /\ (1e16 + 2 =? 1e16 + 3) = false.
Proof. split; vm_compute; reflexivity. Qed.



(** C5, in binary64: for the smallest positive target the quotient
    [target / supply] underflows to 0.0 and the second division raises. *)
Lemma binary64_virtual_tokens_underflow :
  (0 <? 0x1p-1074) = true /\ (0 <? 200) = true /\ (0 <? 1000000000) = true
  /\ Binary64.calculate_virtual_tokens 0x1p-1074 200 1000000000
     = Raise ZeroDivisionError.
Proof. repeat split; vm_compute; reflexivity. Qed.


End Binary64Facts.

(** ** Binary64 inputs at which the rational statements do not apply *)

Section Binary64Examples.

#[local] Set Warnings "-inexact-float".
Local Open Scope float_scope.

(** With 45 points the last amount, [(1e9 / 45) * 45], is above the
    supply; with [virtual_tokens = 2^-23] its divisor is 0.0. *)
Example binary64_price_curve_raises :
  (1000000000 <? 1000000000 / Binary64.of_int 45 * Binary64.of_int 45) = true
  /\ Binary64.calculate_price_curve 30 0x1p-23 1000000000 45
     = Raise ZeroDivisionError.
Proof. split; vm_compute; reflexivity. Qed.

(** With 29 points on the first preset the last amount is below the
    supply: the last entries are not 1000 (millions) and 30 (SOL). *)
Example binary64_price_curve_last_point :
  exists pts t p c,
    Binary64.calculate_price_curve 30 1000000000 1000000000 29 = Ok pts
    /\ nth_error pts 28 = Some (t, p, c)
    /\ (t <? 1000) = true /\ (c <? 30) = true.
Proof.
  do 4 eexists. split; [vm_compute; reflexivity|].
  split; [reflexivity|]. split; vm_compute; reflexivity.
Qed.

(** With [virtual_tokens = 1e30] the supply is absorbed: every cost of
    the first preset's supply is 0.0. *)
Example binary64_costs_absorbed :
  Binary64.calculate_buy_cost 30 1e30 1000000000 (1000000000 * 0.10) = Ok 0
  /\ Binary64.calculate_buy_cost 30 1e30 1000000000 (1000000000 * 0.90) = Ok 0
  /\ (30 / 1e30 =? 30 / (1e30 + 1000000000)) = true.
Proof. repeat split; vm_compute; reflexivity. Qed.

(** A budget of 1e-15 SOL buys 0.0 tokens, in the buyer loop and in the
    whale computation. *)
Example binary64_tiny_budget :
  (exists st, Binary64.buyer_step 30 1000000000 1000000000
                (Binary64.mkSimState 1000000000 0) 1e-15 = Ok (0, st))
  /\ Binary64.whale_purchase 30 1000000000 1000000000 1e-15 = Ok (0, 0).
Proof. split; [eexists|]; vm_compute; reflexivity. Qed.

(** A market cap of 1e-320 USD: the initial price underflows to 0.0 and
    [analyze_market_cap] raises. *)
Example binary64_analyze_market_cap_underflow :
  (0 <? 1e-320) = true
  /\ Binary64.analyze_market_cap 1e-320 200 200 = Raise ZeroDivisionError.
Proof. split; vm_compute; reflexivity. Qed.

(** The script's own whale cell for 10 SOL at the Micro preset, against
    the closed form over the rationals. *)
Example binary64_whale_cell :
  exists pct,
    Binary64.whale_resistance_cell 10 4600 = Ok pct
    /\ (pct =? 100 * 10 / (200 + 10) * (40000 / 4600)) = false.
Proof. eexists. split; vm_compute; reflexivity. Qed.

(** [3 * 0.95] is not 2.85. *)
Example binary64_plot_percentage :
  nth_error Binary64.plot_percentages 3 = Some (Binary64.of_int 3 * 0.95)
  /\ (Binary64.of_int 3 * 0.95 <? 2.85) = true.
Proof. split; vm_compute; reflexivity. Qed.

End Binary64Examples.

(** The first preset at exactly 100% of the supply. *)
Lemma calculate_buy_cost_raises_iff_at_full_supply :
  0 < 1000000000
  /\ (Simulator.calculate_buy_cost 30 1000000000 1000000000 1000000000
        = Raise ZeroDivisionError
      <-> 1000000000 + (1000000000 - 1000000000) == 0)
  /\ Simulator.calculate_buy_cost 30 1000000000 1000000000 1000000000
     = Ok (30 * (1000000000 + 1000000000)
             / (1000000000 + (1000000000 - 1000000000)) - 30).
Proof.
  destruct (calculate_buy_cost_raises_iff 30 1000000000 1000000000
              1000000000) as [Hiff Hreturns].
  split; [by_evaluation|]. split; [exact Hiff|].
  apply Hreturns. by_evaluation.
Defined.
